(** * Photobooth: a shallow embedding of [Photobooth.py]

    The program drives a camera, two GPIO pins and the file system through
    library calls.  Those calls are modelled as primitives of a state and
    exception monad over a [world]; every primitive that reaches hardware or
    the operating system appends an [event] to the world's [trace] and is a
    point where the environment may raise a Python exception. *)

From Stdlib Require Import ZArith String Ascii List Lia DecimalString.
From stdpp Require Import base option list gmap strings.

Local Open Scope string_scope.
Local Open Scope Z_scope.
Local Open Scope list_scope.

(** ** Python values and built-ins used by the program *)

Module Py.

(** [str(n)] for a Python [int]. *)
Definition str (n : Z) : string := NilZero.string_of_int (Z.to_int n).

(** [range(start, stop, step)]; [step] is never [0] in the program. *)
Definition range_len (start stop step : Z) : Z :=
  if 0 <? step then Z.max 0 ((stop - start + step - 1) / step)
  else if step <? 0 then Z.max 0 ((start - stop - step - 1) / (- step))
  else 0.

Definition range3 (start stop step : Z) : list Z :=
  map (fun k => start + Z.of_nat k * step)
      (seq 0 (Z.to_nat (range_len start stop step))).

Definition range2 (start stop : Z) : list Z := range3 start stop 1.
Definition range1 (stop : Z) : list Z := range3 0 stop 1.

(** [s.replace(old, new)] for one-character [old] and [new]. *)
Fixpoint replace (old new : ascii) (s : string) : string :=
  match s with
  | EmptyString => EmptyString
  | String c s' =>
      String (if Ascii.eqb c old then new else c) (replace old new s')
  end.

(** [s.split(sep)[0]] for a one-character [sep]: the text before the first
    occurrence of [sep], the whole string when there is none. *)
Fixpoint split_head (sep : ascii) (s : string) : string :=
  match s with
  | EmptyString => EmptyString
  | String c s' =>
      if Ascii.eqb c sep then EmptyString else String c (split_head sep s')
  end.

(** [c in s] for a character. *)
Fixpoint contains (c : ascii) (s : string) : bool :=
  match s with
  | EmptyString => false
  | String d s' => Ascii.eqb d c || contains c s'
  end.

(** The directory a file path lies in, written with its final slash as the
    program writes its directories: the path up to and including its last
    ["/"], empty when there is none. *)
Fixpoint dir_of (s : string) : string :=
  match s with
  | EmptyString => EmptyString
  | String c s' =>
      if contains "/" s then String c (dir_of s') else EmptyString
  end.

Definition startswith_slash (s : string) : bool :=
  match s with
  | String c _ => Ascii.eqb c "/"
  | EmptyString => false
  end.

Fixpoint endswith_slash (s : string) : bool :=
  match s with
  | EmptyString => false
  | String c EmptyString => Ascii.eqb c "/"
  | String _ s' => endswith_slash s'
  end.

(** [os.path.join(a, b)] (posixpath, two arguments). *)
Definition path_join (a b : string) : string :=
  if startswith_slash b then b
  else if String.eqb a "" || endswith_slash a then a +:+ b
  else a +:+ "/" +:+ b.

(** The decimal digit [d mod 10] as a character. *)
Definition digit (d : Z) : ascii :=
  ascii_of_nat (48 + Z.to_nat (d mod 10)).

(** [n] printed on exactly [w] decimal digits: ["%0wd" % n] for
    [0 <= n < 10^w], which covers every field of a [datetime]. *)
Fixpoint zfill (w : nat) (n : Z) : string :=
  match w with
  | O => EmptyString
  | S w' => zfill w' (n / 10) +:+ String (digit n) EmptyString
  end.

(** A naive [datetime.datetime] value. *)
Record datetime := {
  year : Z; month : Z; day : Z;
  hour : Z; minute : Z; second : Z; microsecond : Z
}.

(** [str(dt)], that is [dt.isoformat(sep=' ')]: the fraction is printed
    only when [microsecond] is not zero. *)
Definition str_datetime (dt : datetime) : string :=
  zfill 4 (year dt) +:+ "-" +:+ zfill 2 (month dt) +:+ "-" +:+
  zfill 2 (day dt) +:+ " " +:+ zfill 2 (hour dt) +:+ ":" +:+
  zfill 2 (minute dt) +:+ ":" +:+ zfill 2 (second dt) +:+
  (if microsecond dt =? 0 then ""
   else "." +:+ zfill 6 (microsecond dt)).

End Py.

(** ** Events, exceptions and the world *)

Inductive level := INFO | WARNING | ERROR.

(** The exceptions library calls raise: an operator interrupt, or any
    subclass of [Exception] with its message.  [SystemExit] is raised only by
    the script itself ([raise SystemExit], [sys.exit()]), never inside a
    function, and appears as the [status] of the script. *)
Inductive exn :=
| KeyboardInterrupt
| Exception (msg : string).

Inductive event :=
| Log (lvl : level) (msg : string)
| GpioSetmode
| GpioSetupIn (pin : Z)
| GpioSetupOut (pin : Z) (initial : Z)
| GpioInput (pin : Z) (value : Z)
| GpioOutput (pin : Z) (value : Z)
| WaitForEdge (pin : Z) (timeout_ms : Z) (result : option Z)
| GpioCleanup
| CameraInit
| CameraConfig (attribute : string) (value : string)
| StartPreview
| StopPreview
| ImageOpen (path : string)
| AddOverlay (h : nat) (source : string) (buffer : Z * Z) (size : Z * Z)
| SetLayer (h : nat) (layer : Z)
| SetAlpha (h : nat) (alpha : Z)
| RemoveOverlay (h : nat)
| Annotate (text : string)
| Sleep (ms : Z)
| Capture (file : string)
| Listdir (path : string)
| Makedirs (path : string).

(** An overlay renderer object: what [camera.add_overlay] returns, with the
    [id] attribute the program adds to it. *)
Record overlay := {
  ov_source : string;
  ov_buffer : Z * Z;
  ov_size : Z * Z;
  ov_layer : Z;
  ov_alpha : Z;
  ov_id : option Z
}.

Record world := {
  trace : list event;             (* what happened, oldest first *)
  heap : gmap nat overlay;        (* renderer objects, by identity *)
  shown : list nat;               (* [camera.overlays] *)
  next_handle : nat;              (* identity of the next new object *)
  dirs : gset string;             (* directories that exist *)
  images : gmap string (Z * Z);   (* image files and their pixel size *)
  pending : option (nat * exn)    (* the environment's next fault *)
}.

Definition emit (ev : event) (w : world) : world :=
  {| trace := trace w ++ [ev]; heap := heap w; shown := shown w;
     next_handle := next_handle w; dirs := dirs w; images := images w;
     pending := pending w |}.

Definition set_pending (p : option (nat * exn)) (w : world) : world :=
  {| trace := trace w; heap := heap w; shown := shown w;
     next_handle := next_handle w; dirs := dirs w; images := images w;
     pending := p |}.

Definition set_heap (hp : gmap nat overlay) (w : world) : world :=
  {| trace := trace w; heap := hp; shown := shown w;
     next_handle := next_handle w; dirs := dirs w; images := images w;
     pending := pending w |}.

Definition set_shown (l : list nat) (w : world) : world :=
  {| trace := trace w; heap := heap w; shown := l;
     next_handle := next_handle w; dirs := dirs w; images := images w;
     pending := pending w |}.

Definition set_next_handle (n : nat) (w : world) : world :=
  {| trace := trace w; heap := heap w; shown := shown w;
     next_handle := n; dirs := dirs w; images := images w;
     pending := pending w |}.

Definition set_dirs (d : gset string) (w : world) : world :=
  {| trace := trace w; heap := heap w; shown := shown w;
     next_handle := next_handle w; dirs := d; images := images w;
     pending := pending w |}.

Definition set_images (im : gmap string (Z * Z)) (w : world) : world :=
  {| trace := trace w; heap := heap w; shown := shown w;
     next_handle := next_handle w; dirs := dirs w; images := im;
     pending := pending w |}.

(** ** The monad: state over [world], with Python exceptions *)

Inductive result (A : Type) :=
| Ok (a : A)
| Raise (e : exn).
Arguments Ok {A} a.
Arguments Raise {A} e.

Definition M (A : Type) : Type := world -> result A * world.

#[global] Instance M_ret : MRet M := fun A a w => (Ok a, w).

#[global] Instance M_bind : MBind M := fun A B f m w =>
  match m w with
  | (Ok a, w') => f a w'
  | (Raise e, w') => (Raise e, w')
  end.

Definition raise {A : Type} (e : exn) : M A := fun w => (Raise e, w).

(** [try: body / except: handler] with a bare [except], which catches
    every exception. *)
Definition try_except {A : Type} (body : M A) (handler : exn -> M A) : M A :=
  fun w =>
    match body w with
    | (Ok a, w') => (Ok a, w')
    | (Raise e, w') => handler e w'
    end.

Definition gets {A : Type} (f : world -> A) : M A := fun w => (Ok (f w), w).
Definition modify (f : world -> world) : M unit := fun w => (Ok tt, f w).

(** A call into a library: the pending fault fires when its countdown is
    at zero, otherwise the call happens and is recorded. *)
Definition call (ev : event) : M unit := fun w =>
  match pending w with
  | Some (O, e) => (Raise e, set_pending None w)
  | Some (S k, e) => (Ok tt, emit ev (set_pending (Some (k, e)) w))
  | None => (Ok tt, emit ev w)
  end.

(** [for x in xs: body], threading the local variables [s]. *)
Fixpoint for_each {A S : Type} (xs : list A) (s : S) (body : A -> S -> M S)
  : M S :=
  match xs with
  | [] => mret s
  | x :: xs' => s' ← body x s; for_each xs' s' body
  end.

(** ** Library calls *)

Definition logging (lvl : level) (msg : string) : M unit :=
  modify (emit (Log lvl msg)).

(** [time.sleep], in milliseconds. *)
Definition sleep (ms : Z) : M unit := call (Sleep ms).

Definition gpio_output (pin value : Z) : M unit := call (GpioOutput pin value).

(** [GPIO.wait_for_edge(pin, GPIO.FALLING, timeout)], given what it will
    answer: [None] on timeout, the channel on an edge. *)
Definition gpio_wait_for_edge (pin timeout : Z) (answer : option Z)
  : M (option Z) :=
  call (WaitForEdge pin timeout answer);; mret answer.

(** [Image.open(path).size]; a missing file is an [IOError]. *)
Definition image_open (path : string) : M (Z * Z) :=
  call (ImageOpen path);;
  im ← gets images;
  match im !! path with
  | Some sz => mret sz
  | None => raise (Exception "IOError")
  end.

(** picamera's defaults for a new overlay: layer 0, alpha 255. *)
Definition new_overlay (source : string) (buffer size : Z * Z) : overlay :=
  {| ov_source := source; ov_buffer := buffer; ov_size := size;
     ov_layer := 0; ov_alpha := 255; ov_id := None |}.

Definition camera_add_overlay (source : string) (buffer size : Z * Z)
  : M nat :=
  h ← gets next_handle;
  call (AddOverlay h source buffer size);;
  modify (fun w => set_next_handle (S h)
                     (set_shown (shown w ++ [h])
                        (set_heap (<[h := new_overlay source buffer size]>
                                     (heap w)) w)));;
  mret h.

(** [list.remove]: drops the first occurrence. *)
Fixpoint list_remove (h : nat) (l : list nat) : list nat :=
  match l with
  | [] => []
  | x :: l' => if Nat.eqb x h then l' else x :: list_remove h l'
  end.

(** [camera.remove_overlay(o)]; an overlay that is not shown is a
    [PiCameraValueError]. *)
Definition camera_remove_overlay (h : nat) : M unit :=
  call (RemoveOverlay h);;
  l ← gets shown;
  if existsb (Nat.eqb h) l
  then modify (fun w => set_shown (list_remove h (shown w)) w)
  else raise (Exception "PiCameraValueError").

Definition with_layer (l : Z) (o : overlay) : overlay :=
  {| ov_source := ov_source o; ov_buffer := ov_buffer o;
     ov_size := ov_size o; ov_layer := l; ov_alpha := ov_alpha o;
     ov_id := ov_id o |}.

Definition with_alpha (a : Z) (o : overlay) : overlay :=
  {| ov_source := ov_source o; ov_buffer := ov_buffer o;
     ov_size := ov_size o; ov_layer := ov_layer o; ov_alpha := a;
     ov_id := ov_id o |}.

Definition with_id (i : Z) (o : overlay) : overlay :=
  {| ov_source := ov_source o; ov_buffer := ov_buffer o;
     ov_size := ov_size o; ov_layer := ov_layer o; ov_alpha := ov_alpha o;
     ov_id := Some i |}.

Definition camera_resolution : Z * Z := (1920, 1120).

(** [camera.capture(file)]: one still frame, written to [file].  The file
    is opened for writing first, which fails when its directory does not
    exist and which empties the file otherwise; then comes the exposure, in
    which the environment may raise; then the image is in the file. *)
Definition camera_capture (file : string) : M unit :=
  d ← gets dirs;
  if bool_decide (Py.dir_of file ∈ d) then
    modify (fun w => set_images (delete file (images w)) w);;
    call (Capture file);;
    modify (fun w => set_images (<[file := camera_resolution]> (images w)) w)
  else
    raise (Exception ("[Errno 2] No such file or directory: '"
                      +:+ file +:+ "'")).

Definition camera_annotate_text (text : string) : M unit :=
  call (Annotate text).

(** ** Python values held in the overlay variables *)

Inductive value :=
| PyInt (n : Z)
| PyBool (b : bool)
| PyOverlay (h : nat).

(** [a != b]. *)
Definition py_ne (a b : value) : bool :=
  match a, b with
  | PyInt x, PyInt y => negb (x =? y)
  | PyBool x, PyInt y | PyInt y, PyBool x => negb ((if x then 1 else 0) =? y)
  | PyBool x, PyBool y => negb (Bool.eqb x y)
  | PyOverlay x, PyOverlay y => negb (Nat.eqb x y)
  | _, _ => true
  end.

(** Truth value of [a] in [if a:]. *)
Definition py_truth (a : value) : bool :=
  match a with
  | PyInt x => negb (x =? 0)
  | PyBool b => b
  | PyOverlay _ => true
  end.

(** Attribute assignments and reads on a value; only renderer objects have
    the attributes. *)
Definition set_layer (o : value) (l : Z) : M unit :=
  match o with
  | PyOverlay h =>
      call (SetLayer h l);;
      modify (fun w => set_heap (alter (with_layer l) h (heap w)) w)
  | _ => raise (Exception "AttributeError")
  end.

Definition set_alpha (o : value) (a : Z) : M unit :=
  match o with
  | PyOverlay h =>
      call (SetAlpha h a);;
      modify (fun w => set_heap (alter (with_alpha a) h (heap w)) w)
  | _ => raise (Exception "AttributeError")
  end.

Definition set_id (o : value) (i : Z) : M unit :=
  match o with
  | PyOverlay h =>
      modify (fun w => set_heap (alter (with_id i) h (heap w)) w)
  | _ => raise (Exception "AttributeError")
  end.

Definition get_id (o : value) : M Z :=
  match o with
  | PyOverlay h =>
      hp ← gets heap;
      match hp !! h ≫= ov_id with
      | Some i => mret i
      | None => raise (Exception "AttributeError")
      end
  | _ => raise (Exception "AttributeError")
  end.

Definition remove_from_camera (o : value) : M unit :=
  match o with
  | PyOverlay h => camera_remove_overlay h
  | _ => raise (Exception "PiCameraValueError")
  end.

(** ** The program *)

Definition screen_width : Z := 1024.
Definition screen_height : Z := 600.
Definition pin_camera_button : Z := 17.
Definition pin_arcade_led : Z := 27.
Definition GPIO_LOW : Z := 0.
Definition GPIO_HIGH : Z := 1.

Section Photobooth.

(** The directory of the script, [os.path.dirname(os.path.abspath(__file__))]. *)
Variable script_dir : string.
(** What [os.listdir('/media/pi/')] returns. *)
Variable media : list string.
(** Whether [os.makedirs] can create a path. *)
Variable creatable : string -> bool.
(** What [datetime.datetime.now()] returns. *)
Variable now : Py.datetime.

Definition os_listdir (path : string) : M (list string) :=
  call (Listdir path);; mret media.

Definition os_path_exists (path : string) : M bool :=
  d ← gets dirs; mret (bool_decide (path ∈ d)).

Definition os_makedirs (path : string) : M unit :=
  call (Makedirs path);;
  if creatable path
  then modify (fun w => set_dirs ({[path]} ∪ dirs w) w)
  else raise (Exception "OSError").

Definition remove_overlay (overlay : value) : M unit :=
  if py_ne overlay (PyInt (-1)) then
    remove_from_camera overlay;;
    i ← get_id overlay;
    logging INFO ("Removed overlay " +:+ Py.str i)
  else mret tt.

Definition pad_size (size : Z * Z) : Z * Z :=
  (((fst size + 31) / 32) * 32, ((snd size + 15) / 16) * 16).

Definition overlay_image (image_name : string) (duration layer : Z)
  : M value :=
  let file := Py.path_join script_dir image_name in
  img ← image_open file;
  let pad := pad_size img in
  h ← camera_add_overlay file pad img;
  let o := PyOverlay h in
  set_layer o layer;;
  set_id o layer;;
  logging INFO ("Created overlay " +:+ image_name);;
  if 0 <? duration then
    sleep (1000 * duration);;
    remove_overlay o;;
    mret (PyInt (-1))
  else mret o.

(** The body of the loop of [set_default_path] for the entry [d]: the
    value it leaves in [photo_path]. *)
Definition try_mount (basedir d : string) : M string :=
  let photo_path := Py.path_join basedir d +:+ "/photobooth/" in
  ex ← os_path_exists photo_path;
  if negb ex then
    try_except
      (os_makedirs photo_path;;
       logging INFO "creating new folder";;
       mret photo_path)
      (fun _ => logging INFO "error creating dir";; mret "")
  else mret photo_path.

Definition set_default_path : M string :=
  let basedir := "/media/pi/" in
  let photo_path := "" in
  ds ← os_listdir basedir;
  photo_path ← for_each ds photo_path (fun d _ => try_mount basedir d);
  let photo_path :=
    if String.eqb photo_path "" then script_dir +:+ "/photobooth/"
    else photo_path in
  logging INFO ("Saving to: " +:+ photo_path);;
  mret photo_path.

Definition set_filename : M string :=
  let filename := Py.split_head "." (Py.str_datetime now) in
  let filename := Py.replace " " "_" filename in
  let filename := Py.replace ":" "-" filename in
  mret filename.

Definition photo_screen (photo_number : Z) : M unit :=
  get_ready_image ←
    overlay_image ("Assets/get_ready_" +:+ Py.str photo_number +:+ ".png")
                  2 3;
  remove_overlay get_ready_image.

Definition take_photo (photo_number : Z) (filepath filename_prefix : string)
  : M unit :=
  let filename :=
    filepath +:+ filename_prefix +:+ "_" +:+ Py.str photo_number
    +:+ "of3.jpg" in
  for_each (Py.range3 3 0 (-1)) tt (fun counter _ =>
    camera_annotate_text ("             ..." +:+ Py.str counter);;
    sleep 1000);;
  camera_annotate_text "";;
  camera_capture filename;;
  logging INFO ("Photo " +:+ Py.str photo_number +:+ " saved").

Definition playback (total_pics : Z) (filepath_prefix filename_prefix : string)
  : M unit :=
  overlay_image "Assets/processing.png" 2 3;;
  let prev_overlay := PyBool false in
  prev_overlay ←
    for_each (Py.range2 1 (total_pics + 1)) prev_overlay
      (fun photo_number prev_overlay =>
         let filename :=
           filepath_prefix +:+ filename_prefix +:+ "_"
           +:+ Py.str photo_number +:+ "of" +:+ Py.str total_pics
           +:+ ".jpg" in
         this_overlay ← overlay_image filename 0 (3 + total_pics);
         (if py_truth prev_overlay then remove_overlay prev_overlay
          else mret tt);;
         sleep 2000;;
         mret this_overlay);
  remove_overlay prev_overlay;;
  overlay_image "Assets/all_done.png" 2 4;;
  mret tt.

(** The local variables of [main] that live across loop iterations. *)
Record locals := {
  intro_image_1 : value;
  intro_image_2 : value;
  i : Z
}.

Definition blink_speed : Z := 10.

(** One iteration of [while True], given the answer of the edge wait. *)
Definition main_iteration (answer : option Z) (l : locals) : M locals :=
  photo_button_pressed ← gpio_wait_for_edge pin_camera_button 100 answer;
  match photo_button_pressed with
  | None =>
      let i := i l + 1 in
      i ← (if i =? blink_speed then
             set_alpha (intro_image_2 l) 255;;
             gpio_output pin_arcade_led 1;;
             mret i
           else if i =? 2 * blink_speed then
             set_alpha (intro_image_2 l) 0;;
             gpio_output pin_arcade_led 0;;
             mret 0
           else mret i);
      sleep 100;;
      mret {| intro_image_1 := intro_image_1 l;
              intro_image_2 := intro_image_2 l; i := i |}
  | Some _ =>
      logging INFO "Button is pressed!";;
      remove_overlay (intro_image_1 l);;
      remove_overlay (intro_image_2 l);;
      filepath ← set_default_path;
      filename ← set_filename;
      let frame := 1 in
      '(i, frame) ← for_each (Py.range1 3) (i l, frame) (fun i '(_, frame) =>
         photo_screen frame;;
         take_photo frame filepath filename;;
         mret (i, frame + 1));
      playback 3 filepath filename;;
      intro_image_1 ← overlay_image "Assets/intro_1.png" 0 3;
      intro_image_2 ← overlay_image "Assets/intro_2.png" 0 4;
      mret {| intro_image_1 := intro_image_1;
              intro_image_2 := intro_image_2; i := i |}
  end.

(** The [while True] loop, run over the answers the edge waits give; the
    loop has no exit, so when the answers are used up it is still
    polling. *)
Fixpoint main_loop (answers : list (option Z)) (l : locals) : M locals :=
  match answers with
  | [] => mret l
  | a :: rest => l' ← main_iteration a l; main_loop rest l'
  end.

Definition main_start : M locals :=
  logging INFO "Main program started";;
  call StartPreview;;
  intro_image_1 ← overlay_image "Assets/intro_1.png" 0 3;
  intro_image_2 ← overlay_image "Assets/intro_2.png" 0 4;
  mret {| intro_image_1 := intro_image_1;
          intro_image_2 := intro_image_2; i := 0 |}.

Definition main (answers : list (option Z)) : M locals :=
  l ← main_start; main_loop answers l.

(** How the script ends: still in the loop, ended by [SystemExit], or
    ended by an exception nobody caught. *)
Inductive status :=
| Running
| Exited
| Crashed (e : exn).

(** The [except] clauses of the last block. *)
Definition handler (e : exn) : M unit :=
  match e with
  | KeyboardInterrupt => logging WARNING "keyboard interrupt"
  | Exception msg => logging ERROR ("Unexpected error: " +:+ msg)
  end.

(** The [finally] clause, up to [sys.exit()]. *)
Definition finally : M unit :=
  logging INFO "End of session";;
  call StopPreview;;
  call GpioCleanup.

(** The last block, [try: main()] with its [except] and [finally]
    clauses, given how [main] went: [main] cannot return, so a run that
    has not raised is still in its loop; an exception is logged, the
    [finally] clause runs and [sys.exit()] ends the script. *)
Definition on_exit (r : result locals * world) : status * world :=
  match r with
  | (Ok _, w1) => (Running, w1)
  | (Raise e, w1) =>
      match (handler e;; finally) w1 with
      | (Ok _, w2) => (Exited, w2)
      | (Raise e', w2) => (Crashed e', w2)
      end
  end.

Definition run_main (answers : list (option Z)) : world -> status * world :=
  fun w => on_exit (main answers w).

(** The statements of the module before the last block. *)
Definition gpio_setup : M unit :=
  call GpioSetmode;;
  call (GpioSetupIn pin_camera_button);;
  call (GpioSetupOut pin_arcade_led GPIO_LOW).

Definition camera_setup : M unit :=
  call (CameraConfig "rotation" "180");;
  call (CameraConfig "resolution" "(1920, 1120)");;
  call (CameraConfig "annotate_text_size" "100");;
  call (CameraConfig "annotate_background" "blue");;
  call (CameraConfig "annotate_foreground" "yellow").

(** The whole script, given the level read on the button pin at startup
    and the answers of the edge waits. *)
Definition script (button : Z) (answers : list (option Z))
  : world -> status * world :=
  fun w =>
    match (gpio_setup;; call (GpioInput pin_camera_button button)) w with
    | (Raise e, w1) => (Crashed e, w1)
    | (Ok _, w1) =>
        if button =? GPIO_LOW then
          (Exited,
           emit (Log INFO "Exiting - the button was pressed during startup")
                w1)
        else
          match call CameraInit w1 with
          | (Raise _, w2) =>
              (Exited, emit (Log ERROR "Error initializing the camera") w2)
          | (Ok _, w2) =>
              match camera_setup w2 with
              | (Raise e, w3) => (Crashed e, w3)
              | (Ok _, w3) => run_main answers w3
              end
          end
    end.

End Photobooth.

(** * Definitions used to state the properties *)

(** The heap after [overlay_image] has made object [h]. *)
Definition heap_add (h : nat) (o : overlay) (layer : Z)
  (hp : gmap nat overlay) : gmap nat overlay :=
  alter (with_id layer) h (alter (with_layer layer) h (<[h := o]> hp)).

(** All shown overlays are older than the next object. *)
Definition fresh (w : world) : Prop :=
  Forall (fun h => (h < next_handle w)%nat) (shown w).

(** The asset images of the kiosk, all of the size of the screen. *)
Definition asset_names : list string :=
  ["intro_1"; "intro_2"; "get_ready_1"; "get_ready_2"; "get_ready_3";
   "processing"; "all_done"].

Definition assets (script_dir : string) : gmap string (Z * Z) :=
  list_to_map
    (map (fun n => (script_dir +:+ "/Assets/" +:+ n +:+ ".png",
                    (screen_width, screen_height)))
       asset_names).

(** The world when the script starts: nothing has happened, nothing is on
    screen, no removable drive has a [photobooth/] directory yet, and the
    environment raises no fault. *)
Definition boot_world (script_dir : string) : world :=
  {| trace := []; heap := ∅; shown := []; next_handle := 0%nat; dirs := ∅;
     images := assets script_dir; pending := None |}.

(** [p] is the least multiple of [unit] that is at least [n]. *)
Definition least_multiple (unit n p : Z) : Prop :=
  p mod unit = 0 /\ n <= p /\ forall m, m mod unit = 0 -> n <= m -> p <= m.

(** The stem the spec describes for a timestamp: date and time to the
    second, with [_] between them and [-] inside the time. *)
Definition stem (dt : Py.datetime) : string :=
  Py.zfill 4 (Py.year dt) +:+ "-" +:+ Py.zfill 2 (Py.month dt) +:+ "-" +:+
  Py.zfill 2 (Py.day dt) +:+ "_" +:+ Py.zfill 2 (Py.hour dt) +:+ "-" +:+
  Py.zfill 2 (Py.minute dt) +:+ "-" +:+ Py.zfill 2 (Py.second dt).

(** The name of shot [n] of a session: [<path><stem>_<n>of3.jpg]. *)
Definition photo_file (path stem : string) (n : Z) : string :=
  path +:+ stem +:+ "_" +:+ Py.str n +:+ "of3.jpg".

(** What [take_photo] does for shot [n]: the countdown, then one capture. *)
Definition take_photo_events (path stem : string) (n : Z) : list event :=
  [Annotate "             ...3"; Sleep 1000;
   Annotate "             ...2"; Sleep 1000;
   Annotate "             ...1"; Sleep 1000;
   Annotate "";
   Capture (photo_file path stem n);
   Log INFO ("Photo " +:+ Py.str n +:+ " saved")].

(** What [overlay_image] does until the overlay is on screen, for object
    [h] made from [file] of size [sz]. *)
Definition show_events (h : nat) (file name : string) (sz : Z * Z)
  (layer : Z) : list event :=
  [ImageOpen file; AddOverlay h file (pad_size sz) sz; SetLayer h layer;
   Log INFO ("Created overlay " +:+ name)].

(** What [remove_overlay] does for object [h] whose [id] is [layer]. *)
Definition hide_events (h : nat) (layer : Z) : list event :=
  [RemoveOverlay h; Log INFO ("Removed overlay " +:+ Py.str layer)].

(** An overlay shown for [seconds] and then removed. *)
Definition flash_events (h : nat) (file name : string) (sz : Z * Z)
  (layer seconds : Z) : list event :=
  show_events h file name sz layer
  ++ [Sleep (1000 * seconds)] ++ hide_events h layer.

(** What [playback] of three photos does, [n] being the first new object
    and [sp], [s1], [s2], [s3], [sd] the sizes of the images it opens. *)
Definition playback_events (script_dir path stem : string) (n : nat)
  (sp s1 s2 s3 sd : Z * Z) : list event :=
  let file k := photo_file path stem k in
  let at_ name := Py.path_join script_dir name in
  flash_events n (at_ "Assets/processing.png") "Assets/processing.png" sp 3 2
  ++ show_events (n + 1) (at_ (file 1)) (file 1) s1 6
  ++ [Sleep 2000]
  ++ show_events (n + 2) (at_ (file 2)) (file 2) s2 6
  ++ hide_events (n + 1) 6
  ++ [Sleep 2000]
  ++ show_events (n + 3) (at_ (file 3)) (file 3) s3 6
  ++ hide_events (n + 2) 6
  ++ [Sleep 2000]
  ++ hide_events (n + 3) 6
  ++ flash_events (n + 4) (at_ "Assets/all_done.png") "Assets/all_done.png"
       sd 4 2.

(** The overlays on screen after the events [evs], from those in [acc]. *)
Fixpoint on_screen (evs : list event) (acc : list nat) : list nat :=
  match evs with
  | [] => acc
  | AddOverlay h _ _ _ :: rest => on_screen rest (acc ++ [h])
  | RemoveOverlay h :: rest => on_screen rest (list_remove h acc)
  | _ :: rest => on_screen rest acc
  end.

(** The world of a kiosk in [script_dir] after the three photos of the
    session [path], [stem] have been written. *)
Definition world_with_photos (script_dir path stem : string) : world :=
  set_images
    (<[photo_file path stem 3 := camera_resolution]>
       (<[photo_file path stem 2 := camera_resolution]>
          (<[photo_file path stem 1 := camera_resolution]>
             (assets script_dir))))
    (boot_world script_dir).

(** The [photobooth/] directory of the entry [d] of [/media/pi/]. *)
Definition mount_path (d : string) : string :=
  Py.path_join "/media/pi/" d +:+ "/photobooth/".

(** The directory exists already or can be created. *)
Definition usable (creatable : string -> bool) (ds : gset string)
  (d : string) : bool :=
  bool_decide (mount_path d ∈ ds) || creatable (mount_path d).

(** Events of the storage resolver: listing, directory creation, log. *)
Definition storage_event (e : event) : bool :=
  match e with
  | Listdir _ | Makedirs _ | Log _ _ => true
  | _ => false
  end.

(** The files captured by the events, in order. *)
Fixpoint captures (evs : list event) : list string :=
  match evs with
  | [] => []
  | Capture f :: rest => f :: captures rest
  | _ :: rest => captures rest
  end.

(** The overlays the events create, each with the file it shows, and the
    overlays they remove, in order. *)
Fixpoint added (evs : list event) : list (nat * string) :=
  match evs with
  | [] => []
  | AddOverlay h file _ _ :: rest => (h, file) :: added rest
  | _ :: rest => added rest
  end.

Fixpoint removed (evs : list event) : list nat :=
  match evs with
  | [] => []
  | RemoveOverlay h :: rest => h :: removed rest
  | _ :: rest => removed rest
  end.

(** The events of one edge-less poll of the idle loop, [tick] being the
    number of edge-less polls since the counter was last [0]. *)
Definition poll_events (h : nat) (tick : Z) : list event :=
  [WaitForEdge pin_camera_button 100 None]
  ++ (if tick mod (2 * blink_speed) =? blink_speed
      then [SetAlpha h 255; GpioOutput pin_arcade_led 1]
      else if tick mod (2 * blink_speed) =? 0
      then [SetAlpha h 0; GpioOutput pin_arcade_led 0]
      else [])
  ++ [Sleep 100].

(** The events of [k] edge-less polls in a row, after [c] earlier ones. *)
Fixpoint idle_events (h : nat) (c : Z) (k : nat) : list event :=
  match k with
  | O => []
  | S k' => poll_events h (c + 1) ++ idle_events h (c + 1) k'
  end.

(** A poll that neither touches the overlay nor the light. *)
Definition quiet_poll : list event :=
  [WaitForEdge pin_camera_button 100 None; Sleep 100].

(** The [id] attribute of object [h]. *)
Definition id_of (w : world) (h : nat) : option Z := heap w !! h ≫= ov_id.

(** Every asset image can be opened. *)
Definition assets_present (script_dir : string) (w : world) : Prop :=
  Forall (fun name =>
            is_Some (images w !! Py.path_join script_dir
                                   ("Assets/" +:+ name +:+ ".png")))
    asset_names.

(** The idle state: the two intro overlays held in the local variables are
    what is on screen, and nothing else is. *)
Definition idle (script_dir : string) (w : world) (l : locals) : Prop :=
  exists h1 h2,
    intro_image_1 l = PyOverlay h1 /\ intro_image_2 l = PyOverlay h2
    /\ shown w = [h1; h2]
    /\ (h1 < next_handle w)%nat /\ (h2 < next_handle w)%nat
    /\ id_of w h1 = Some 3 /\ id_of w h2 = Some 4
    /\ pending w = None
    /\ assets_present script_dir w.

(** The sizes of the asset images a session opens. *)
Record asset_sizes := {
  sz_get_ready_1 : Z * Z; sz_get_ready_2 : Z * Z; sz_get_ready_3 : Z * Z;
  sz_processing : Z * Z; sz_all_done : Z * Z;
  sz_intro_1 : Z * Z; sz_intro_2 : Z * Z
}.

(** The events of the three shots: a "get ready" overlay for 2 seconds and
    then the photo, for shots 1, 2 and 3, [n] being the first new object. *)
Definition capture_events (script_dir path stem : string) (n : nat)
  (a : asset_sizes) : list event :=
  let at_ name := Py.path_join script_dir name in
  flash_events n (at_ "Assets/get_ready_1.png") "Assets/get_ready_1.png"
    (sz_get_ready_1 a) 3 2
  ++ take_photo_events path stem 1
  ++ flash_events (n + 1) (at_ "Assets/get_ready_2.png")
       "Assets/get_ready_2.png" (sz_get_ready_2 a) 3 2
  ++ take_photo_events path stem 2
  ++ flash_events (n + 2) (at_ "Assets/get_ready_3.png")
       "Assets/get_ready_3.png" (sz_get_ready_3 a) 3 2
  ++ take_photo_events path stem 3.

(** The events of one session: the edge, the intro overlays [h1] and [h2]
    taken down, the events [storage] of the choice of the directory, the
    three shots, the playback, and the new intro overlays. *)
Definition session_events (script_dir path stem : string) (channel : Z)
  (h1 h2 n : nat) (storage : list event) (a : asset_sizes) : list event :=
  let at_ name := Py.path_join script_dir name in
  [WaitForEdge pin_camera_button 100 (Some channel);
   Log INFO "Button is pressed!"]
  ++ hide_events h1 3 ++ hide_events h2 4
  ++ storage
  ++ capture_events script_dir path stem n a
  ++ playback_events script_dir path stem (n + 3) (sz_processing a)
       camera_resolution camera_resolution camera_resolution (sz_all_done a)
  ++ show_events (n + 8) (at_ "Assets/intro_1.png") "Assets/intro_1.png"
       (sz_intro_1 a) 3
  ++ show_events (n + 9) (at_ "Assets/intro_2.png") "Assets/intro_2.png"
       (sz_intro_2 a) 4.

(** The directory [set_default_path] answers in a world whose existing
    directories are [ds]. *)
Definition chosen_path (script_dir : string) (media : list string)
  (creatable : string -> bool) (ds : gset string) : string :=
  match last media with
  | Some d => if usable creatable ds d then mount_path d
              else script_dir +:+ "/photobooth/"
  | None => script_dir +:+ "/photobooth/"
  end.

(** The world and the local variables when the kiosk in [script_dir] has
    just put up its intro overlays for the first time. *)
Definition first_idle (script_dir : string) : result locals * world :=
  main_start script_dir (boot_world script_dir).

Definition first_idle_world (script_dir : string) : world :=
  snd (first_idle script_dir).

Definition first_idle_locals : locals :=
  {| intro_image_1 := PyOverlay 0; intro_image_2 := PyOverlay 1; i := 0 |}.

(** The poll at which the overlay is made opaque and the light goes on,
    and the poll at which the overlay is made transparent and the light goes
    off. *)
Definition raise_poll (h : nat) : list event :=
  [WaitForEdge pin_camera_button 100 None;
   SetAlpha h 255; GpioOutput pin_arcade_led 1; Sleep 100].

Definition lower_poll (h : nat) : list event :=
  [WaitForEdge pin_camera_button 100 None;
   SetAlpha h 0; GpioOutput pin_arcade_led 0; Sleep 100].

(** What the script does before the guard on the button. *)
Definition gpio_events (button : Z) : list event :=
  [GpioSetmode; GpioSetupIn pin_camera_button;
   GpioSetupOut pin_arcade_led GPIO_LOW;
   GpioInput pin_camera_button button].

(** What the script does between the guard and the loop, [n] being the
    first new object and [s1], [s2] the sizes of the intro images. *)
Definition startup_events (script_dir : string) (n : nat) (s1 s2 : Z * Z)
  : list event :=
  [CameraInit;
   CameraConfig "rotation" "180";
   CameraConfig "resolution" "(1920, 1120)";
   CameraConfig "annotate_text_size" "100";
   CameraConfig "annotate_background" "blue";
   CameraConfig "annotate_foreground" "yellow";
   Log INFO "Main program started";
   StartPreview]
  ++ show_events n (Py.path_join script_dir "Assets/intro_1.png")
       "Assets/intro_1.png" s1 3
  ++ show_events (n + 1) (Py.path_join script_dir "Assets/intro_2.png")
       "Assets/intro_2.png" s2 4.

(** The log line of the [except] clause that catches [e]. *)
Definition fault_log (e : exn) : event :=
  match e with
  | KeyboardInterrupt => Log WARNING "keyboard interrupt"
  | Exception msg => Log ERROR ("Unexpected error: " +:+ msg)
  end.

(** The world in which the environment interrupts the [k]-th library call
    from now. *)
Definition interrupted_after (k : nat) (w : world) : world :=
  set_pending (Some (k, KeyboardInterrupt)) w.

(** The number of answers of the edge wait that are an edge. *)
Fixpoint edges (answers : list (option Z)) : nat :=
  match answers with
  | [] => O
  | Some _ :: rest => S (edges rest)
  | None :: rest => edges rest
  end.

(** The time the events spend in [sleep], in milliseconds, and the number
    of edge waits among them. *)
Fixpoint slept (evs : list event) : Z :=
  match evs with
  | [] => 0
  | Sleep ms :: rest => ms + slept rest
  | _ :: rest => slept rest
  end.

Fixpoint waits (evs : list event) : nat :=
  match evs with
  | [] => O
  | WaitForEdge _ _ _ :: rest => S (waits rest)
  | _ :: rest => waits rest
  end.

(** A timestamp whose fields fit the digits [str] prints them on. *)
Definition printable (dt : Py.datetime) : Prop :=
  0 <= Py.year dt < 10000 /\ 0 <= Py.month dt < 100
  /\ 0 <= Py.day dt < 100 /\ 0 <= Py.hour dt < 100
  /\ 0 <= Py.minute dt < 100 /\ 0 <= Py.second dt < 100.

(** Two timestamps that agree to the second. *)
Definition same_second (a b : Py.datetime) : Prop :=
  Py.year a = Py.year b /\ Py.month a = Py.month b /\ Py.day a = Py.day b
  /\ Py.hour a = Py.hour b /\ Py.minute a = Py.minute b
  /\ Py.second a = Py.second b.

(** The countdown of [take_photo], up to the cleared annotation. *)
Definition countdown_events : list event :=
  [Annotate "             ...3"; Sleep 1000;
   Annotate "             ...2"; Sleep 1000;
   Annotate "             ...1"; Sleep 1000;
   Annotate ""].

(** The directory beside the script. *)
Definition fallback_path (script_dir : string) : string :=
  script_dir +:+ "/photobooth/".

(** The directory [set_default_path] answers is there to write to once it
    has answered: it is the directory of a usable entry, which exists or is
    made, or it is the directory beside the script, which the program never
    makes and which must exist already. *)
Definition target_exists (script_dir : string) (media : list string)
  (creatable : string -> bool) (ds : gset string) : Prop :=
  match last media with
  | Some d => if usable creatable ds d then True
              else fallback_path script_dir ∈ ds
  | None => fallback_path script_dir ∈ ds
  end.

(** * Properties *)

(** ** The Python built-ins, on examples *)

Example str_of_int : map Py.str [0; 3; 17; -4] = ["0"; "3"; "17"; "-4"].
Proof. reflexivity. Qed.

Example range_countdown : Py.range3 3 0 (-1) = [3; 2; 1].
Proof. reflexivity. Qed.

Example range_shots : Py.range1 3 = [0; 1; 2] /\ Py.range2 1 4 = [1; 2; 3].
Proof. split; reflexivity. Qed.

Example path_join_examples :
  Py.path_join "/media/pi/" "USB1" = "/media/pi/USB1"
  /\ Py.path_join "/home/pi" "Assets/intro_1.png"
     = "/home/pi/Assets/intro_1.png"
  /\ Py.path_join "/home/pi" "/media/pi/USB1/photobooth/a.jpg"
     = "/media/pi/USB1/photobooth/a.jpg".
Proof. repeat split. Qed.

Example str_datetime_examples :
  Py.str_datetime (Py.Build_datetime 2024 1 1 12 0 0 123456)
  = "2024-01-01 12:00:00.123456"
  /\ Py.str_datetime (Py.Build_datetime 2024 1 1 12 0 0 0)
     = "2024-01-01 12:00:00".
Proof. split; reflexivity. Qed.

(** ** Running monadic code *)

Lemma bind_ok {A B : Type} (m : M A) (f : A -> M B) w a w1 r :
  m w = (Ok a, w1) -> f a w1 = r -> (m ≫= f) w = r.
Proof. intros Hm Hf. unfold mbind, M_bind. rewrite Hm. exact Hf. Qed.

Lemma bind_raise_first {A B : Type} (m : M A) (f : A -> M B) w e w1 :
  m w = (Raise e, w1) -> (m ≫= f) w = (Raise e, w1).
Proof. intros Hm. unfold mbind, M_bind. now rewrite Hm. Qed.

Lemma call_ok ev w :
  pending w = None -> call ev w = (Ok tt, emit ev w).
Proof. intros H. unfold call. now rewrite H. Qed.

Lemma logging_ok lvl msg w : logging lvl msg w = (Ok tt, emit (Log lvl msg) w).
Proof. reflexivity. Qed.

Ltac wsimpl :=
  unfold emit, set_pending, set_heap, set_shown, set_next_handle, set_dirs,
    set_images;
  cbn [trace heap shown next_handle dirs images pending fst snd].

(** Run the first action of a bind with the lemma [lem]. *)
Ltac run lem :=
  eapply bind_ok; [ lem | cbv beta; wsimpl ].

(** Run straight-line code made of library calls to its end. *)
Ltac exec :=
  lazymatch goal with
  | |- @mbind _ _ _ _ _ _ _ = _ =>
      eapply bind_ok; [ exec | cbv beta; wsimpl; exec ]
  | |- call _ _ = _ =>
      apply call_ok; wsimpl; first [assumption | reflexivity]
  | |- logging _ _ _ = _ => apply logging_ok
  | |- mret _ _ = _ => reflexivity
  | |- gets _ _ = _ => reflexivity
  | |- modify _ _ = _ => reflexivity
  end.

Ltac run_call := run ltac:(apply call_ok; wsimpl; try assumption; try reflexivity).
Ltac run_log := run ltac:(apply logging_ok).

(** ** Overlays *)

Lemma heap_add_id h o layer hp :
  heap_add h o layer hp !! h ≫= ov_id = Some layer.
Proof.
  unfold heap_add. rewrite !lookup_alter_eq, lookup_insert_eq. reflexivity.
Qed.

Lemma heap_add_other h o layer hp h' :
  h' <> h -> heap_add h o layer hp !! h' = hp !! h'.
Proof.
  intros Hne. unfold heap_add.
  rewrite !lookup_alter_ne, lookup_insert_ne by congruence. reflexivity.
Qed.

Lemma existsb_last n l : existsb (Nat.eqb n) (l ++ [n]) = true.
Proof.
  rewrite existsb_app. simpl. rewrite Nat.eqb_refl.
  now rewrite orb_true_r.
Qed.

Section OverlayFacts.

Variable script_dir : string.

(** Removing a shown overlay whose [id] is known. *)
Lemma remove_overlay_ok w h i :
  pending w = None ->
  existsb (Nat.eqb h) (shown w) = true ->
  heap w !! h ≫= ov_id = Some i ->
  remove_overlay (PyOverlay h) w
  = (Ok tt,
     {| trace := trace w ++ [RemoveOverlay h;
                             Log INFO ("Removed overlay " +:+ Py.str i)];
        heap := heap w; shown := list_remove h (shown w);
        next_handle := next_handle w; dirs := dirs w;
        images := images w; pending := None |}).
Proof.
  intros Hp Hin Hid. unfold remove_overlay. cbn [py_ne].
  unfold remove_from_camera, camera_remove_overlay.
  eapply bind_ok.
  { run_call. eapply bind_ok; [reflexivity|]. cbv beta. wsimpl.
    rewrite Hin. reflexivity. }
  cbv beta. wsimpl. unfold get_id.
  eapply bind_ok.
  { eapply bind_ok; [reflexivity|]. cbv beta. wsimpl. rewrite Hid.
    reflexivity. }
  cbv beta. rewrite logging_ok. wsimpl.
  rewrite <- app_assoc, Hp. reflexivity.
Qed.

(** The sentinel [-1] is not removed. *)
Lemma remove_overlay_sentinel w :
  remove_overlay (PyInt (-1)) w = (Ok tt, w).
Proof. reflexivity. Qed.

(** [overlay_image] with no duration leaves the overlay on screen. *)
Lemma overlay_image_keep w name duration layer sz :
  pending w = None ->
  duration <= 0 ->
  images w !! Py.path_join script_dir name = Some sz ->
  overlay_image script_dir name duration layer w
  = (Ok (PyOverlay (next_handle w)),
     let file := Py.path_join script_dir name in
     {| trace := trace w ++ [ImageOpen file;
                             AddOverlay (next_handle w) file (pad_size sz) sz;
                             SetLayer (next_handle w) layer;
                             Log INFO ("Created overlay " +:+ name)];
        heap := heap_add (next_handle w)
                  (new_overlay file (pad_size sz) sz) layer (heap w);
        shown := shown w ++ [next_handle w];
        next_handle := S (next_handle w); dirs := dirs w;
        images := images w; pending := None |}).
Proof.
  intros Hp Hd Him. unfold overlay_image. cbv zeta.
  eapply bind_ok.
  { unfold image_open. run_call. eapply bind_ok; [reflexivity|].
    cbv beta. wsimpl. rewrite Him. reflexivity. }
  cbv beta. wsimpl.
  eapply bind_ok.
  { unfold camera_add_overlay. eapply bind_ok; [reflexivity|].
    cbv beta. wsimpl. run_call. reflexivity. }
  cbv beta. wsimpl.
  eapply bind_ok.
  { unfold set_layer. run_call. reflexivity. }
  cbv beta. wsimpl.
  eapply bind_ok; [reflexivity|]. cbv beta. wsimpl.
  run_log. destruct (Z.ltb_spec 0 duration) as [|_]; [lia|].
  unfold mret, M_ret, heap_add. rewrite <- !app_assoc, Hp. reflexivity.
Qed.

(** [overlay_image] with a duration shows the overlay, sleeps and removes
    it again. *)
Lemma overlay_image_timed w name duration layer sz :
  pending w = None ->
  0 < duration ->
  images w !! Py.path_join script_dir name = Some sz ->
  overlay_image script_dir name duration layer w
  = (Ok (PyInt (-1)),
     let file := Py.path_join script_dir name in
     {| trace := trace w ++ [ImageOpen file;
                             AddOverlay (next_handle w) file (pad_size sz) sz;
                             SetLayer (next_handle w) layer;
                             Log INFO ("Created overlay " +:+ name);
                             Sleep (1000 * duration);
                             RemoveOverlay (next_handle w);
                             Log INFO ("Removed overlay " +:+ Py.str layer)];
        heap := heap_add (next_handle w)
                  (new_overlay file (pad_size sz) sz) layer (heap w);
        shown := list_remove (next_handle w) (shown w ++ [next_handle w]);
        next_handle := S (next_handle w); dirs := dirs w;
        images := images w; pending := None |}).
Proof.
  intros Hp Hd Him. unfold overlay_image. cbv zeta.
  eapply bind_ok.
  { unfold image_open. run_call. eapply bind_ok; [reflexivity|].
    cbv beta. wsimpl. rewrite Him. reflexivity. }
  cbv beta. wsimpl.
  eapply bind_ok.
  { unfold camera_add_overlay. eapply bind_ok; [reflexivity|].
    cbv beta. wsimpl. run_call. reflexivity. }
  cbv beta. wsimpl.
  eapply bind_ok.
  { unfold set_layer. run_call. reflexivity. }
  cbv beta. wsimpl.
  eapply bind_ok; [reflexivity|]. cbv beta. wsimpl.
  run_log.
  destruct (Z.ltb_spec 0 duration) as [_|]; [|lia].
  unfold sleep. run_call.
  eapply bind_ok.
  { apply remove_overlay_ok with (i := layer); wsimpl.
    - exact Hp.
    - apply existsb_last.
    - apply heap_add_id. }
  wsimpl. unfold mret, M_ret.
  rewrite <- !app_assoc. reflexivity.
Qed.

End OverlayFacts.

(** ** Padding of overlays *)

Lemma pad_size_least sz :
  least_multiple 32 (fst sz) (fst (pad_size sz))
  /\ least_multiple 16 (snd sz) (snd (pad_size sz)).
Proof.
  destruct sz as [x y]. unfold least_multiple, pad_size. cbn [fst snd].
  split; (split; [|split]).
  - apply Z_mod_mult.
  - Z.div_mod_to_equations. lia.
  - intros m Hm Hle. Z.div_mod_to_equations. lia.
  - apply Z_mod_mult.
  - Z.div_mod_to_equations. lia.
  - intros m Hm Hle. Z.div_mod_to_equations. lia.
Qed.

(** C5: whatever the width and height of the image, [overlay_image] hands
    the compositor a buffer whose width is the least multiple of 32 and whose
    height is the least multiple of 16 that hold the image, and asks for it
    to be displayed at the size of the image itself. *)
Theorem overlay_image_padding script_dir w name duration layer sz :
  pending w = None ->
  images w !! Py.path_join script_dir name = Some sz ->
  exists r w' rest,
    overlay_image script_dir name duration layer w = (Ok r, w')
    /\ trace w'
       = trace w
         ++ ImageOpen (Py.path_join script_dir name)
            :: AddOverlay (next_handle w) (Py.path_join script_dir name)
                 (pad_size sz) sz
            :: rest
    /\ least_multiple 32 (fst sz) (fst (pad_size sz))
    /\ least_multiple 16 (snd sz) (snd (pad_size sz)).
Proof.
  intros Hp Him.
  destruct (Z_lt_le_dec 0 duration) as [Hd|Hd].
  - eexists _, _, _. split; [|split].
    + apply overlay_image_timed; eassumption.
    + cbv zeta. cbn [trace]. reflexivity.
    + apply pad_size_least.
  - eexists _, _, _. split; [|split].
    + apply overlay_image_keep; eassumption.
    + cbv zeta. cbn [trace]. reflexivity.
    + apply pad_size_least.
Qed.

Lemma overlay_image_padding_witness :
  exists r w' rest,
    overlay_image "/home/pi" "Assets/intro_1.png" 0 3 (boot_world "/home/pi")
    = (Ok r, w')
    /\ trace w'
       = [] ++ ImageOpen "/home/pi/Assets/intro_1.png"
            :: AddOverlay 0 "/home/pi/Assets/intro_1.png"
                 (pad_size (1024, 600)) (1024, 600)
            :: rest
    /\ least_multiple 32 1024 (fst (pad_size (1024, 600)))
    /\ least_multiple 16 600 (snd (pad_size (1024, 600))).
Proof.
  apply (overlay_image_padding "/home/pi" (boot_world "/home/pi")
           "Assets/intro_1.png" 0 3 (1024, 600)).
  - reflexivity.
  - vm_compute. reflexivity.
Defined.

(** ** File name stems *)

Lemma append_cons x a b : String x a +:+ b = String x (a +:+ b).
Proof. reflexivity. Qed.

Lemma contains_app c a b :
  Py.contains c (a +:+ b) = Py.contains c a || Py.contains c b.
Proof.
  induction a as [|x a IH]; [reflexivity|].
  rewrite append_cons. cbn [Py.contains]. rewrite IH. apply orb_assoc.
Qed.

Lemma replace_app o n a b :
  Py.replace o n (a +:+ b) = Py.replace o n a +:+ Py.replace o n b.
Proof.
  induction a as [|x a IH]; [reflexivity|].
  rewrite append_cons. cbn [Py.replace]. rewrite IH. reflexivity.
Qed.

Lemma replace_absent o n a :
  Py.contains o a = false -> Py.replace o n a = a.
Proof.
  induction a as [|x a IH]; cbn [Py.replace Py.contains]; [reflexivity|].
  intros H. apply orb_false_elim in H as [Hx Ha].
  rewrite Hx, IH by exact Ha. reflexivity.
Qed.

Lemma split_head_app c a b :
  Py.contains c a = false ->
  Py.split_head c (a +:+ b) = a +:+ Py.split_head c b.
Proof.
  induction a as [|x a IH]; [reflexivity|].
  rewrite append_cons. cbn [Py.split_head Py.contains].
  intros H. apply orb_false_elim in H as [Hx Ha].
  rewrite Hx, IH by exact Ha. reflexivity.
Qed.

(** After [replace(old, new)] no [old] is left. *)
Lemma replace_removes o n s :
  Ascii.eqb n o = false -> Py.contains o (Py.replace o n s) = false.
Proof.
  intros Hne.
  induction s as [|x s IH]; cbn [Py.replace Py.contains]; [reflexivity|].
  rewrite IH, orb_false_r.
  destruct (Ascii.eqb x o) eqn:Hx; [exact Hne | exact Hx].
Qed.

(** [replace(old, new)] brings in no character other than [new]. *)
Lemma replace_keeps_absent c o n s :
  Ascii.eqb n c = false ->
  Py.contains c s = false -> Py.contains c (Py.replace o n s) = false.
Proof.
  intros Hne.
  induction s as [|x s IH]; cbn [Py.replace Py.contains]; [reflexivity|].
  intros H. apply orb_false_elim in H as [Hx Hs].
  rewrite IH, orb_false_r by exact Hs.
  destruct (Ascii.eqb x o); [exact Hne | exact Hx].
Qed.

Lemma digit_cases d :
  In (Py.digit d) ["0"; "1"; "2"; "3"; "4"; "5"; "6"; "7"; "8"; "9"]%char.
Proof.
  unfold Py.digit.
  assert (H : 0 <= d mod 10 < 10) by (apply Z.mod_pos_bound; lia).
  assert (Hc : d mod 10 = 0 \/ d mod 10 = 1 \/ d mod 10 = 2 \/ d mod 10 = 3
               \/ d mod 10 = 4 \/ d mod 10 = 5 \/ d mod 10 = 6
               \/ d mod 10 = 7 \/ d mod 10 = 8 \/ d mod 10 = 9) by lia.
  cbn [In].
  repeat (destruct Hc as [Hc|Hc]; [rewrite Hc; tauto|]).
  rewrite Hc. tauto.
Qed.

(** A zero-filled number holds digits only. *)
Lemma zfill_digits c w n :
  ~ In c ["0"; "1"; "2"; "3"; "4"; "5"; "6"; "7"; "8"; "9"]%char ->
  Py.contains c (Py.zfill w n) = false.
Proof.
  intros Hc. revert n.
  induction w as [|w IH]; intros n; cbn [Py.zfill]; [reflexivity|].
  rewrite contains_app, IH. cbn [Py.contains orb].
  rewrite orb_false_r.
  destruct (Ascii.eqb_spec (Py.digit n) c) as [E|]; [|reflexivity].
  exfalso. apply Hc. rewrite <- E. apply digit_cases.
Qed.

Ltac not_a_digit :=
  cbn [In]; intros H;
  repeat (destruct H as [H|H]; [discriminate H|]); exact H.

Lemma set_filename_stem now :
  Py.replace ":" "-"
    (Py.replace " " "_" (Py.split_head "." (Py.str_datetime now)))
  = stem now.
Proof.
  assert (Hdot : forall w n, Py.contains "." (Py.zfill w n) = false)
    by (intros; apply zfill_digits; not_a_digit).
  assert (Hsp : forall w n, Py.contains " " (Py.zfill w n) = false)
    by (intros; apply zfill_digits; not_a_digit).
  assert (Hcol : forall w n, Py.contains ":" (Py.zfill w n) = false)
    by (intros; apply zfill_digits; not_a_digit).
  unfold Py.str_datetime, stem.
  repeat (rewrite split_head_app by (apply Hdot || reflexivity)).
  assert (Hfrac :
    Py.split_head "."
      (if Py.microsecond now =? 0 then ""
       else "." +:+ Py.zfill 6 (Py.microsecond now)) = "").
  { destruct (Py.microsecond now =? 0); reflexivity. }
  rewrite Hfrac.
  rewrite !replace_app.
  rewrite !(replace_absent " " "_" (Py.zfill _ _)) by apply Hsp.
  rewrite !(replace_absent ":" "-" (Py.zfill _ _)) by apply Hcol.
  cbn [Py.replace Ascii.eqb Bool.eqb].
  rewrite ?append_nil_r. reflexivity.
Qed.

(** C8: the stem is a function of the timestamp alone (the world plays no
    part and is left as it was), it holds neither a space nor a colon, and
    it is the timestamp to the second, without its fraction, with the space
    turned into an underscore and the colons into hyphens. *)
Theorem set_filename_deterministic now w :
  set_filename now w = (Ok (stem now), w)
  /\ Py.contains " " (stem now) = false
  /\ Py.contains ":" (stem now) = false.
Proof.
  split; [|split].
  - unfold set_filename. cbv zeta. rewrite set_filename_stem. reflexivity.
  - rewrite <- set_filename_stem.
    apply replace_keeps_absent; [reflexivity|].
    apply replace_removes. reflexivity.
  - rewrite <- set_filename_stem. apply replace_removes. reflexivity.
Qed.

(** ** Taking a photo *)

Lemma take_photo_countdown w :
  pending w = None ->
  (for_each (Py.range3 3 0 (-1)) tt (fun counter _ =>
     camera_annotate_text ("             ..." +:+ Py.str counter);;
     sleep 1000);;
   camera_annotate_text "") w
  = (Ok tt,
     {| trace := trace w ++ countdown_events;
        heap := heap w; shown := shown w; next_handle := next_handle w;
        dirs := dirs w; images := images w; pending := None |}).
Proof.
  intros Hp.
  change (Py.range3 3 0 (-1)) with [3; 2; 1]. cbn [for_each].
  unfold camera_annotate_text, sleep.
  etransitivity; [exec|]. wsimpl.
  rewrite <- !app_assoc, Hp. reflexivity.
Qed.

Lemma bind_assoc_run {A B C : Type} (m : M A) (f : A -> M B) (g : B -> M C)
  w :
  (m ≫= (fun x => f x ≫= g)) w = ((m ≫= f) ≫= g) w.
Proof.
  unfold mbind, M_bind. destruct (m w) as [[a|e] w1]; reflexivity.
Qed.

(** [take_photo] when the directory of the file exists. *)
Lemma take_photo_ok w n path stem :
  pending w = None ->
  Py.dir_of (photo_file path stem n) ∈ dirs w ->
  take_photo n path stem w
  = (Ok tt,
     {| trace := trace w ++ take_photo_events path stem n;
        heap := heap w; shown := shown w; next_handle := next_handle w;
        dirs := dirs w;
        images := <[photo_file path stem n := camera_resolution]> (images w);
        pending := None |}).
Proof.
  intros Hp Hd. unfold take_photo. cbv zeta. rewrite bind_assoc_run.
  eapply bind_ok; [apply take_photo_countdown, Hp|].
  fold (photo_file path stem n). unfold camera_capture.
  eapply bind_ok.
  { eapply bind_ok; [reflexivity|]. cbv beta. wsimpl.
    rewrite bool_decide_eq_true_2 by exact Hd.
    etransitivity; [exec|]. reflexivity. }
  cbv beta. rewrite logging_ok. wsimpl.
  rewrite insert_delete_eq.
  unfold take_photo_events, countdown_events.
  rewrite <- !app_assoc. reflexivity.
Qed.

(** [take_photo] when the directory of the file does not exist. *)
Lemma take_photo_no_directory w n path stem :
  pending w = None ->
  Py.dir_of (photo_file path stem n) ∉ dirs w ->
  take_photo n path stem w
  = (Raise (Exception ("[Errno 2] No such file or directory: '"
                       +:+ photo_file path stem n +:+ "'")),
     {| trace := trace w ++ countdown_events;
        heap := heap w; shown := shown w; next_handle := next_handle w;
        dirs := dirs w; images := images w; pending := None |}).
Proof.
  intros Hp Hd. unfold take_photo. cbv zeta. rewrite bind_assoc_run.
  eapply bind_ok; [apply take_photo_countdown, Hp|].
  fold (photo_file path stem n). unfold camera_capture.
  apply bind_raise_first.
  eapply bind_ok; [reflexivity|]. cbv beta. wsimpl.
  rewrite bool_decide_eq_false_2 by exact Hd. reflexivity.
Qed.

(** C6: for any shot number, path and stem, [take_photo] sets the
    annotation to 3, 2 and 1 with a second of sleep after each, clears it,
    and then captures once, to [<path><stem>_<n>of3.jpg].  When the
    directory of that file exists the capture writes the file and the photo
    is logged as saved; when it does not, the capture raises, nothing is
    written and nothing is logged. *)
Theorem take_photo_countdown_then_capture w n path stem :
  pending w = None ->
  let file := path +:+ stem +:+ "_" +:+ Py.str n +:+ "of3.jpg" in
  let countdown :=
    [Annotate "             ...3"; Sleep 1000;
     Annotate "             ...2"; Sleep 1000;
     Annotate "             ...1"; Sleep 1000;
     Annotate ""] in
  exists r w',
    take_photo n path stem w = (r, w')
    /\ if bool_decide (Py.dir_of file ∈ dirs w)
       then r = Ok tt
            /\ trace w'
               = trace w ++ countdown
                 ++ [Capture file;
                     Log INFO ("Photo " +:+ Py.str n +:+ " saved")]
            /\ images w' !! file = Some camera_resolution
       else r = Raise (Exception ("[Errno 2] No such file or directory: '"
                                  +:+ file +:+ "'"))
            /\ trace w' = trace w ++ countdown
            /\ images w' = images w.
Proof.
  intros Hp file countdown.
  destruct (bool_decide (Py.dir_of file ∈ dirs w)) eqn:Hd.
  - apply bool_decide_eq_true in Hd.
    eexists _, _. split; [apply take_photo_ok; [exact Hp | exact Hd]|].
    cbn [trace images]. split; [reflexivity|]. split; [reflexivity|].
    apply lookup_insert_eq.
  - apply bool_decide_eq_false in Hd.
    eexists _, _.
    split; [apply take_photo_no_directory; [exact Hp | exact Hd]|].
    cbn [trace images]. repeat split.
Qed.

Lemma take_photo_countdown_then_capture_witness :
  let path := "/media/pi/USB1/photobooth/" in
  let stem := "2024-01-01_12-00-00" in
  let w := set_dirs {[path]} (boot_world "/home/pi") in
  let file := "/media/pi/USB1/photobooth/2024-01-01_12-00-00_1of3.jpg" in
  let countdown :=
    [Annotate "             ...3"; Sleep 1000;
     Annotate "             ...2"; Sleep 1000;
     Annotate "             ...1"; Sleep 1000;
     Annotate ""] in
  exists r w',
    take_photo 1 path stem w = (r, w')
    /\ if bool_decide (Py.dir_of file ∈ dirs w)
       then r = Ok tt
            /\ trace w'
               = trace w ++ countdown
                 ++ [Capture file; Log INFO "Photo 1 saved"]
            /\ images w' !! file = Some camera_resolution
       else r = Raise (Exception ("[Errno 2] No such file or directory: '"
                                  +:+ file +:+ "'"))
            /\ trace w' = trace w ++ countdown
            /\ images w' = images w.
Proof.
  intros path stem w file countdown.
  apply (take_photo_countdown_then_capture w 1 path stem).
  reflexivity.
Defined.

(** The three file names of the scenario of the spec. *)
Example photo_file_scenario :
  map (photo_file "/media/pi/USB1/photobooth/" "2024-01-01_12-00-00")
    [1; 2; 3]
  = ["/media/pi/USB1/photobooth/2024-01-01_12-00-00_1of3.jpg";
     "/media/pi/USB1/photobooth/2024-01-01_12-00-00_2of3.jpg";
     "/media/pi/USB1/photobooth/2024-01-01_12-00-00_3of3.jpg"].
Proof. reflexivity. Qed.

(** ** Playback *)

Lemma existsb_mid h l r : existsb (Nat.eqb h) (l ++ h :: r) = true.
Proof.
  rewrite existsb_app. cbn [existsb]. rewrite Nat.eqb_refl.
  now rewrite orb_true_r.
Qed.

Lemma list_remove_mid h l r :
  Forall (fun x => (x < h)%nat) l -> list_remove h (l ++ h :: r) = l ++ r.
Proof.
  induction 1 as [|x l Hx _ IH]; cbn [app list_remove].
  - now rewrite Nat.eqb_refl.
  - destruct (Nat.eqb_spec x h); [lia | now rewrite IH].
Qed.

Lemma Forall_lt_mono (n m : nat) l :
  (n <= m)%nat ->
  Forall (fun x => (x < n)%nat) l -> Forall (fun x => (x < m)%nat) l.
Proof.
  intros Hle H. induction H as [|x l Hx _ IH]; constructor; [lia | exact IH].
Qed.

Lemma playback_ok script_dir w path stem sp s1 s2 s3 sd :
  pending w = None ->
  fresh w ->
  images w !! Py.path_join script_dir "Assets/processing.png" = Some sp ->
  images w !! Py.path_join script_dir (photo_file path stem 1) = Some s1 ->
  images w !! Py.path_join script_dir (photo_file path stem 2) = Some s2 ->
  images w !! Py.path_join script_dir (photo_file path stem 3) = Some s3 ->
  images w !! Py.path_join script_dir "Assets/all_done.png" = Some sd ->
  exists hp,
    playback script_dir 3 path stem w
    = (Ok tt,
       {| trace := trace w
                   ++ playback_events script_dir path stem (next_handle w)
                        sp s1 s2 s3 sd;
          heap := hp; shown := shown w;
          next_handle := (next_handle w + 5)%nat; dirs := dirs w;
          images := images w; pending := None |})
    /\ forall h, (h < next_handle w)%nat -> hp !! h = heap w !! h.
Proof.
  intros Hp Hfr Hip H1 H2 H3 Hid. unfold fresh in Hfr.
  set (n := next_handle w) in *.
  eexists. split.
  - unfold playback.
    eapply bind_ok.
    { apply overlay_image_timed with (sz := sp);
        [exact Hp | lia | exact Hip]. }
    cbv beta zeta. wsimpl. fold n.
    rewrite (list_remove_mid n (shown w) []) by exact Hfr.
    rewrite app_nil_r.
    change (Py.range2 1 (3 + 1)) with [1; 2; 3]. cbn [for_each].
    eapply bind_ok.
    { eapply bind_ok.
      { eapply bind_ok.
        { apply overlay_image_keep with (sz := s1);
            [reflexivity | lia | exact H1]. }
        cbv beta zeta. wsimpl. cbn [py_truth].
        etransitivity; [unfold sleep; exec|]. reflexivity. }
      cbv beta. wsimpl.
      eapply bind_ok.
      { eapply bind_ok.
        { apply overlay_image_keep with (sz := s2);
            [reflexivity | lia | exact H2]. }
        cbv beta zeta. wsimpl. cbn [py_truth].
        eapply bind_ok.
        { apply remove_overlay_ok with (i := 6); wsimpl.
          - reflexivity.
          - rewrite <- app_assoc. apply existsb_mid.
          - rewrite heap_add_other by lia. apply heap_add_id. }
        wsimpl. etransitivity; [unfold sleep; exec|]. reflexivity. }
      cbv beta. wsimpl.
      eapply bind_ok.
      { eapply bind_ok.
        { apply overlay_image_keep with (sz := s3);
            [reflexivity | lia | exact H3]. }
        cbv beta zeta. wsimpl. cbn [py_truth].
        eapply bind_ok.
        { apply remove_overlay_ok with (i := 6); wsimpl.
          - reflexivity.
          - rewrite <- !app_assoc. cbn [app].
            rewrite (list_remove_mid (S n) (shown w) [S (S n)])
              by (eapply Forall_lt_mono; [|exact Hfr]; lia).
            rewrite <- app_assoc. apply existsb_mid.
          - rewrite heap_add_other by lia. apply heap_add_id. }
        wsimpl. etransitivity; [unfold sleep; exec|]. reflexivity. }
      cbv beta. wsimpl. reflexivity. }
    cbv beta. wsimpl.
    rewrite <- !(app_assoc (shown w)). cbn [app].
    rewrite (list_remove_mid (S n) (shown w) [S (S n)])
      by (eapply Forall_lt_mono; [|exact Hfr]; lia).
    rewrite <- !(app_assoc (shown w)). cbn [app].
    rewrite (list_remove_mid (S (S n)) (shown w) [S (S (S n))])
      by (eapply Forall_lt_mono; [|exact Hfr]; lia).
    eapply bind_ok.
    { apply remove_overlay_ok with (i := 6); wsimpl.
      - reflexivity.
      - apply existsb_mid.
      - apply heap_add_id. }
    wsimpl.
    rewrite (list_remove_mid (S (S (S n))) (shown w) [])
      by (eapply Forall_lt_mono; [|exact Hfr]; lia).
    rewrite app_nil_r.
    eapply bind_ok.
    { apply overlay_image_timed with (sz := sd);
        [reflexivity | lia | exact Hid]. }
    cbv beta zeta. wsimpl.
    rewrite (list_remove_mid (S (S (S (S n)))) (shown w) [])
      by (eapply Forall_lt_mono; [|exact Hfr]; lia).
    rewrite app_nil_r.
    unfold mret, M_ret. f_equal. f_equal.
    + unfold playback_events, flash_events, show_events, hide_events.
      rewrite <- !app_assoc. cbn [app].
      replace (n + 1)%nat with (S n) by lia.
      replace (n + 2)%nat with (S (S n)) by lia.
      replace (n + 3)%nat with (S (S (S n))) by lia.
      replace (n + 4)%nat with (S (S (S (S n)))) by lia.
      reflexivity.
    + lia.
  - intros h Hh. fold n in Hh.
    rewrite !heap_add_other by lia. reflexivity.
Qed.

(** Take a split [evs = pre ++ post] of an explicit list apart, one case for
    each length of [pre]. *)
Ltac split_cases :=
  repeat match goal with
    | H : _ :: _ = ?pre ++ _ |- _ =>
        destruct pre as [|? pre]; cbn [app] in H;
        [ subst | injection H as <- H ]
    end;
  try match goal with
    | H : [] = ?pre ++ _ |- _ =>
        destruct pre; cbn [app] in H; [ subst | discriminate H ]
    end.

Ltac absurd_member H :=
  cbn [In] in H;
  repeat (destruct H as [H|H]; [ try discriminate H; injection H; intros; lia |]);
  first [ exact H | discriminate H | (injection H; intros; lia) ].

Ltac screen_eval :=
  cbn [on_screen]; repeat (progress (cbn [app list_remove]; rewrite ?Nat.eqb_refl)).

Lemma playback_never_blank script_dir path stem n sp s1 s2 s3 sd pre post :
  playback_events script_dir path stem n sp s1 s2 s3 sd = pre ++ post ->
  In (AddOverlay (n + 1)
        (Py.path_join script_dir (photo_file path stem 1))
        (pad_size s1) s1) pre ->
  In (RemoveOverlay (n + 3)) post ->
  on_screen pre [] <> [].
Proof.
  intros Heq.
  unfold playback_events, flash_events, show_events, hide_events in Heq.
  cbn [app] in Heq.
  split_cases; intros Hadd Hrem;
    first [ exfalso; absurd_member Hadd
          | exfalso; absurd_member Hrem
          | screen_eval; discriminate ].
Qed.

Lemma playback_remove_after_add script_dir path stem n sp s1 s2 s3 sd
  pre post :
  playback_events script_dir path stem n sp s1 s2 s3 sd
  = pre ++ post ->
  (In (RemoveOverlay (n + 1)) pre ->
   In (AddOverlay (n + 2)
         (Py.path_join script_dir (photo_file path stem 2))
         (pad_size s2) s2) pre)
  /\ (In (RemoveOverlay (n + 2)) pre ->
      In (AddOverlay (n + 3)
            (Py.path_join script_dir (photo_file path stem 3))
            (pad_size s3) s3) pre).
Proof.
  intros Heq.
  unfold playback_events, flash_events, show_events, hide_events in Heq.
  cbn [app] in Heq.
  split_cases; split; intros Hrem;
    first [ exfalso; absurd_member Hrem
          | cbn [In]; tauto ].
Qed.

(** C3: playback of the three photos.  In the events of [playback], the
    overlay of photo 1 is removed only after that of photo 2 was added, and
    that of photo 2 only after that of photo 3 was added; from the moment
    the first photo is on screen until the last one is removed the screen
    is never without an overlay; and the events end with the removal of the
    last photo and a "done" overlay shown for 2 seconds. *)
Theorem playback_overlaps script_dir w path stem sp s1 s2 s3 sd :
  pending w = None ->
  fresh w ->
  images w !! Py.path_join script_dir "Assets/processing.png" = Some sp ->
  images w !! Py.path_join script_dir (photo_file path stem 1) = Some s1 ->
  images w !! Py.path_join script_dir (photo_file path stem 2) = Some s2 ->
  images w !! Py.path_join script_dir (photo_file path stem 3) = Some s3 ->
  images w !! Py.path_join script_dir "Assets/all_done.png" = Some sd ->
  let n := next_handle w in
  let file k := Py.path_join script_dir (photo_file path stem k) in
  let evs := playback_events script_dir path stem n sp s1 s2 s3 sd in
  exists w',
    playback script_dir 3 path stem w = (Ok tt, w')
    /\ trace w' = trace w ++ evs
    /\ shown w' = shown w
    /\ (forall pre post, evs = pre ++ post ->
          (In (RemoveOverlay (n + 1)) pre ->
           In (AddOverlay (n + 2) (file 2) (pad_size s2) s2) pre)
          /\ (In (RemoveOverlay (n + 2)) pre ->
              In (AddOverlay (n + 3) (file 3) (pad_size s3) s3) pre)
          /\ (In (AddOverlay (n + 1) (file 1) (pad_size s1) s1) pre ->
              In (RemoveOverlay (n + 3)) post ->
              on_screen pre [] <> []))
    /\ exists front,
         evs = front
               ++ [RemoveOverlay (n + 3); Log INFO "Removed overlay 6"]
               ++ show_events (n + 4)
                    (Py.path_join script_dir "Assets/all_done.png")
                    "Assets/all_done.png" sd 4
               ++ [Sleep 2000; RemoveOverlay (n + 4);
                   Log INFO "Removed overlay 4"].
Proof.
  intros Hp Hfr Hip H1 H2 H3 Hid n file evs.
  destruct (playback_ok script_dir w path stem sp s1 s2 s3 sd
              Hp Hfr Hip H1 H2 H3 Hid) as (hp & Hrun & _).
  eexists. split; [exact Hrun|]. cbn [trace shown].
  split; [reflexivity|]. split; [reflexivity|]. split.
  - intros pre post Heq. split; [|split].
    + apply (playback_remove_after_add _ _ _ _ _ _ _ _ _ _ _ Heq).
    + apply (playback_remove_after_add _ _ _ _ _ _ _ _ _ _ _ Heq).
    + apply (playback_never_blank _ _ _ _ _ _ _ _ _ _ _ Heq).
  - subst evs. unfold playback_events.
    rewrite !app_assoc.
    eexists. rewrite <- app_assoc. reflexivity.
Qed.

Lemma playback_overlaps_witness :
  let script_dir := "/home/pi" in
  let path := "/media/pi/USB1/photobooth/" in
  let stem := "2024-01-01_12-00-00" in
  let w := world_with_photos script_dir path stem in
  let sz := (screen_width, screen_height) in
  let n := 0%nat in
  let file k := Py.path_join script_dir (photo_file path stem k) in
  let evs :=
    playback_events script_dir path stem n sz camera_resolution
      camera_resolution camera_resolution sz in
  exists w',
    playback script_dir 3 path stem w = (Ok tt, w')
    /\ trace w' = trace w ++ evs
    /\ shown w' = shown w
    /\ (forall pre post, evs = pre ++ post ->
          (In (RemoveOverlay (n + 1)) pre ->
           In (AddOverlay (n + 2) (file 2) (pad_size camera_resolution)
                 camera_resolution) pre)
          /\ (In (RemoveOverlay (n + 2)) pre ->
              In (AddOverlay (n + 3) (file 3) (pad_size camera_resolution)
                    camera_resolution) pre)
          /\ (In (AddOverlay (n + 1) (file 1) (pad_size camera_resolution)
                    camera_resolution) pre ->
              In (RemoveOverlay (n + 3)) post ->
              on_screen pre [] <> []))
    /\ exists front,
         evs = front
               ++ [RemoveOverlay (n + 3); Log INFO "Removed overlay 6"]
               ++ show_events (n + 4)
                    (Py.path_join script_dir "Assets/all_done.png")
                    "Assets/all_done.png" sz 4
               ++ [Sleep 2000; RemoveOverlay (n + 4);
                   Log INFO "Removed overlay 4"].
Proof.
  intros script_dir path stem w sz n file evs.
  apply (playback_overlaps script_dir w path stem sz camera_resolution
           camera_resolution camera_resolution sz).
  - reflexivity.
  - constructor.
  - vm_compute. reflexivity.
  - vm_compute. reflexivity.
  - vm_compute. reflexivity.
  - vm_compute. reflexivity.
  - vm_compute. reflexivity.
Defined.

(** ** The output directory *)

Section StorageFacts.

Variable script_dir : string.
Variable media : list string.
Variable creatable : string -> bool.

Lemma mount_path_not_empty d : String.eqb (mount_path d) "" = false.
Proof.
  unfold mount_path.
  destruct (Py.path_join "/media/pi/" d); reflexivity.
Qed.

Lemma mount_path_absolute d : Py.startswith_slash (mount_path d) = true.
Proof.
  unfold mount_path, Py.path_join.
  destruct (Py.startswith_slash d) eqn:Hd.
  - destruct d; [discriminate Hd | exact Hd].
  - reflexivity.
Qed.

(** One entry of the listing. *)
Lemma try_mount_ok w d :
  pending w = None ->
  exists evs ds',
    try_mount creatable "/media/pi/" d w
    = (Ok (if usable creatable (dirs w) d then mount_path d else ""),
       {| trace := trace w ++ evs; heap := heap w; shown := shown w;
          next_handle := next_handle w; dirs := ds';
          images := images w; pending := None |})
    /\ forallb storage_event evs = true
    /\ (forall x, x ∈ dirs w -> x ∈ ds')
    /\ (forall x, x ∈ ds' -> x ∈ dirs w \/ creatable x = true).
Proof.
  intros Hp. unfold try_mount, usable. cbv zeta. fold (mount_path d).
  unfold mbind at 1, M_bind, os_path_exists. cbn [mbind M_bind gets mret M_ret].
  unfold gets, mbind, M_bind, mret, M_ret.
  destruct (bool_decide (mount_path d ∈ dirs w)) eqn:Hex; cbn [negb orb].
  - exists [], (dirs w). rewrite app_nil_r, <- Hp.
    destruct w; cbn. repeat split; auto.
  - unfold try_except, os_makedirs, mbind, M_bind.
    rewrite call_ok by exact Hp.
    destruct (creatable (mount_path d)) eqn:Hc.
    + exists [Makedirs (mount_path d); Log INFO "creating new folder"],
        ({[mount_path d]} ∪ dirs w).
      unfold modify, logging, modify, mret, M_ret. wsimpl.
      rewrite <- app_assoc, Hp. cbn [app forallb storage_event andb].
      repeat split.
      * intros x Hx. apply elem_of_union. now right.
      * intros x Hx. apply elem_of_union in Hx as [Hx|Hx]; [|now left].
        apply elem_of_singleton in Hx. subst x. now right.
    + exists [Makedirs (mount_path d); Log INFO "error creating dir"],
        (dirs w).
      unfold raise, logging, modify, mret, M_ret. wsimpl.
      rewrite <- app_assoc, Hp. cbn [app forallb storage_event andb].
      repeat split; auto.
Qed.

Lemma usable_later ds ds' d :
  (forall x, x ∈ ds -> x ∈ ds') ->
  (forall x, x ∈ ds' -> x ∈ ds \/ creatable x = true) ->
  usable creatable ds' d = usable creatable ds d.
Proof.
  intros Hsub Hnew. unfold usable.
  destruct (creatable (mount_path d)) eqn:Hc; [now rewrite !orb_true_r|].
  rewrite !orb_false_r.
  apply bool_decide_ext. split; [|apply Hsub].
  intros Hx. destruct (Hnew _ Hx) as [H|H]; [exact H | congruence].
Qed.

(** The loop over the listing: the value left in [photo_path] is the one
    of the last entry. *)
Lemma scan_mounts_ok ms : forall w p0,
  pending w = None ->
  exists evs ds',
    for_each ms p0 (fun d _ => try_mount creatable "/media/pi/" d) w
    = (Ok match last ms with
          | None => p0
          | Some d => if usable creatable (dirs w) d then mount_path d
                      else ""
          end,
       {| trace := trace w ++ evs; heap := heap w; shown := shown w;
          next_handle := next_handle w; dirs := ds';
          images := images w; pending := None |})
    /\ forallb storage_event evs = true
    /\ (forall x, x ∈ dirs w -> x ∈ ds')
    /\ (forall x, x ∈ ds' -> x ∈ dirs w \/ creatable x = true).
Proof.
  induction ms as [|d ms IH]; intros w p0 Hp.
  - exists [], (dirs w). cbn [for_each last]. unfold mret, M_ret.
    rewrite app_nil_r, <- Hp. destruct w; cbn. repeat split; auto.
  - destruct (try_mount_ok w d Hp) as (evs1 & ds1 & Hrun1 & Hst1 & Hs1 & Hn1).
    cbn [for_each].
    match type of Hrun1 with _ = (Ok ?p, ?w1) =>
      destruct (IH w1 p eq_refl) as (evs2 & ds2 & Hrun2 & Hst2 & Hs2 & Hn2)
    end.
    cbn [trace heap shown next_handle dirs images pending] in *.
    exists (evs1 ++ evs2), ds2.
    split; [|split; [|split]].
    + eapply bind_ok; [exact Hrun1|]. rewrite Hrun2.
      rewrite <- app_assoc. f_equal. f_equal.
      destruct ms as [|d' ms']; [reflexivity|].
      change (last (d :: d' :: ms')) with (last (d' :: ms')).
      destruct (last (d' :: ms')) as [e|] eqn:Hl;
        [|apply last_None in Hl; discriminate Hl].
      now rewrite (usable_later (dirs w) ds1 e Hs1 Hn1).
    + rewrite forallb_app, Hst1, Hst2. reflexivity.
    + intros x Hx. auto.
    + intros x Hx. destruct (Hn2 x Hx) as [H|H]; [|now right]. auto.
Qed.

(** What [set_default_path] answers: the directory of the last entry of
    the listing when it is usable, the directory beside the script when
    it is not or when the listing is empty. *)
Lemma set_default_path_ok w :
  pending w = None ->
  exists evs ds',
    set_default_path script_dir media creatable w
    = (Ok match last media with
          | Some d => if usable creatable (dirs w) d then mount_path d
                      else script_dir +:+ "/photobooth/"
          | None => script_dir +:+ "/photobooth/"
          end,
       {| trace := trace w ++ evs; heap := heap w; shown := shown w;
          next_handle := next_handle w; dirs := ds';
          images := images w; pending := None |})
    /\ forallb storage_event evs = true.
Proof.
  intros Hp. unfold set_default_path. cbv zeta.
  destruct (scan_mounts_ok media (emit (Listdir "/media/pi/") w) ""
              Hp) as (evs & ds' & Hrun & Hst & _ & _).
  cbn [trace heap shown next_handle dirs images pending emit] in Hrun.
  set (p := match last media with
            | Some d => if usable creatable (dirs w) d then mount_path d
                        else ""
            | None => ""
            end) in *.
  exists ([Listdir "/media/pi/"] ++ evs
          ++ [Log INFO ("Saving to: " +:+
                if String.eqb p "" then script_dir +:+ "/photobooth/"
                else p)]), ds'.
  split.
  - eapply bind_ok.
    { unfold os_listdir. etransitivity; [exec|]. reflexivity. }
    eapply bind_ok; [exact Hrun|].
    eapply bind_ok; [apply logging_ok|]. wsimpl. unfold mret, M_ret.
    rewrite <- !app_assoc. f_equal. f_equal.
    subst p. destruct (last media) as [d|]; [|reflexivity].
    destruct (usable creatable (dirs w) d); [|reflexivity].
    now rewrite mount_path_not_empty.
  - rewrite !forallb_app, Hst. reflexivity.
Qed.

(** X2: with an empty listing, or when no entry is usable, the answer is
    the directory beside the script. *)
Lemma set_default_path_fallback w :
  pending w = None ->
  Forall (fun d => usable creatable (dirs w) d = false) media ->
  exists w',
    set_default_path script_dir media creatable w
    = (Ok (script_dir +:+ "/photobooth/"), w').
Proof.
  intros Hp Hall.
  destruct (set_default_path_ok w Hp) as (evs & ds' & Hrun & _).
  eexists. rewrite Hrun. f_equal. f_equal.
  destruct (last media) as [d|] eqn:Hl; [|reflexivity].
  apply last_Some_elem_of in Hl.
  rewrite Forall_forall in Hall. now rewrite (Hall d Hl).
Qed.

End StorageFacts.

(** What exists after the choice of the directory *)

Section StorageMore.

Variable script_dir : string.
Variable creatable : string -> bool.

(** The directories after one entry of the listing. *)
Lemma try_mount_dirs w d :
  pending w = None ->
  exists r evs ds',
    try_mount creatable "/media/pi/" d w
    = (Ok r,
       {| trace := trace w ++ evs; heap := heap w; shown := shown w;
          next_handle := next_handle w; dirs := ds';
          images := images w; pending := None |})
    /\ forall x, x ∈ ds' <->
                 x ∈ dirs w \/ (x = mount_path d /\ creatable x = true).
Proof.
  intros Hp. unfold try_mount. cbv zeta. fold (mount_path d).
  unfold os_path_exists, gets, mbind, M_bind, mret, M_ret.
  destruct (bool_decide (mount_path d ∈ dirs w)) eqn:Hex; cbn [negb].
  - exists (mount_path d), [], (dirs w). rewrite app_nil_r, <- Hp.
    split; [destruct w; reflexivity|].
    intros x. split; [now left|]. intros [H|[-> _]]; [exact H|].
    now apply bool_decide_eq_true in Hex.
  - unfold try_except, os_makedirs, mbind, M_bind.
    rewrite call_ok by exact Hp.
    destruct (creatable (mount_path d)) eqn:Hc.
    + eexists _, [Makedirs (mount_path d); Log INFO "creating new folder"],
        ({[mount_path d]} ∪ dirs w).
      unfold modify, logging, modify, mret, M_ret. wsimpl.
      rewrite <- app_assoc, Hp. split; [reflexivity|].
      intros x. rewrite elem_of_union, elem_of_singleton. split.
      * intros [->|H]; [right; now split | now left].
      * intros [H|[-> _]]; [now right | now left].
    + eexists _, [Makedirs (mount_path d); Log INFO "error creating dir"],
        (dirs w).
      unfold raise, logging, modify, mret, M_ret. wsimpl.
      rewrite <- app_assoc, Hp. split; [reflexivity|].
      intros x. split; [now left|]. intros [H|[-> H]]; [exact H|congruence].
Qed.

(** The directories after the loop over the listing [ms]. *)
Lemma scan_mounts_dirs ms : forall w p0,
  pending w = None ->
  exists r evs ds',
    for_each ms p0 (fun d _ => try_mount creatable "/media/pi/" d) w
    = (Ok r,
       {| trace := trace w ++ evs; heap := heap w; shown := shown w;
          next_handle := next_handle w; dirs := ds';
          images := images w; pending := None |})
    /\ forall x, x ∈ ds' <->
                 x ∈ dirs w
                 \/ (creatable x = true /\ exists d, In d ms /\ x = mount_path d).
Proof.
  induction ms as [|d ms IH]; intros w p0 Hp.
  - exists p0, [], (dirs w). cbn [for_each]. unfold mret, M_ret.
    rewrite app_nil_r, <- Hp. split; [destruct w; reflexivity|].
    intros x. split; [now left|]. intros [H|(_ & d & [] & _)]. exact H.
  - destruct (try_mount_dirs w d Hp) as (r1 & evs1 & ds1 & Hrun1 & Hd1).
    match type of Hrun1 with _ = (Ok _, ?w1) =>
      destruct (IH w1 r1 eq_refl) as (r2 & evs2 & ds2 & Hrun2 & Hd2)
    end.
    cbn [trace heap shown next_handle dirs images pending] in *.
    exists r2, (evs1 ++ evs2), ds2. split.
    + cbn [for_each]. eapply bind_ok; [exact Hrun1|]. rewrite Hrun2.
      now rewrite <- app_assoc.
    + intros x. rewrite Hd2, Hd1. cbn [In]. split.
      * intros [[H|[-> Hc]]|(Hc & e & He & ->)]; [now left | right | right].
        -- split; [exact Hc|]. exists d. now split; [left|].
        -- split; [exact Hc|]. exists e. now split; [right|].
      * intros [H|(Hc & e & [<-|He] & ->)].
        -- left. now left.
        -- left. right. now split.
        -- right. split; [exact Hc|]. now exists e.
Qed.

Lemma set_default_path_dirs media w :
  pending w = None ->
  exists r evs ds',
    set_default_path script_dir media creatable w
    = (Ok r,
       {| trace := trace w ++ evs; heap := heap w; shown := shown w;
          next_handle := next_handle w; dirs := ds';
          images := images w; pending := None |})
    /\ forall x, x ∈ ds' <->
                 x ∈ dirs w
                 \/ (creatable x = true
                     /\ exists d, In d media /\ x = mount_path d).
Proof.
  intros Hp. unfold set_default_path. cbv zeta.
  destruct (scan_mounts_dirs media (emit (Listdir "/media/pi/") w) "" Hp)
    as (r & evs & ds' & Hrun & Hd).
  cbn [trace heap shown next_handle dirs images pending emit] in Hrun, Hd.
  eexists _, _, ds'. split; [|exact Hd].
  eapply bind_ok.
  { unfold os_listdir. etransitivity; [exec|]. reflexivity. }
  eapply bind_ok; [exact Hrun|].
  eapply bind_ok; [apply logging_ok|]. wsimpl. unfold mret, M_ret.
  rewrite <- !app_assoc. reflexivity.
Qed.

End StorageMore.

(** ** The directory of a photo file *)

Lemma dir_of_no_slash s : Py.contains "/" s = false -> Py.dir_of s = "".
Proof. destruct s as [|c s]; [reflexivity|]. cbn [Py.dir_of]. now intros ->. Qed.

Lemma dir_of_append a b :
  Py.contains "/" b = false -> Py.dir_of ((a +:+ "/") +:+ b) = a +:+ "/".
Proof.
  intros Hb. induction a as [|c a IH].
  - change (("" +:+ "/") +:+ b) with (String "/" b).
    cbn [Py.dir_of Py.contains Ascii.eqb Bool.eqb orb].
    now rewrite dir_of_no_slash.
  - rewrite !append_cons. cbn [Py.dir_of].
    assert (Hc : Py.contains "/" (String c ((a +:+ "/") +:+ b)) = true).
    { cbn [Py.contains]. rewrite !contains_app.
      cbn [Py.contains Ascii.eqb Bool.eqb orb].
      now rewrite !orb_true_r. }
    rewrite Hc, IH. reflexivity.
Qed.

Lemma append_assoc_string a b c : (a +:+ b) +:+ c = a +:+ (b +:+ c).
Proof.
  induction a as [|x a IH]; [reflexivity|].
  rewrite !append_cons. now rewrite IH.
Qed.

Lemma stem_no_slash now : Py.contains "/" (stem now) = false.
Proof.
  assert (H : forall w n, Py.contains "/" (Py.zfill w n) = false)
    by (intros; apply zfill_digits; not_a_digit).
  unfold stem. rewrite !contains_app, !H. reflexivity.
Qed.

(** A photo of a session lies in the directory of the session, when that
    is a [photobooth/] directory. *)
Lemma dir_of_photo_file p now n :
  In n [1; 2; 3] ->
  Py.dir_of (photo_file (p +:+ "/photobooth/") (stem now) n)
  = p +:+ "/photobooth/".
Proof.
  intros Hn. unfold photo_file.
  change "/photobooth/" with ("/photobooth" +:+ "/").
  rewrite <- (append_assoc_string p "/photobooth" "/").
  apply dir_of_append.
  rewrite !contains_app, stem_no_slash.
  cbn [In] in Hn. destruct Hn as [<-|[<-|[<-|[]]]]; reflexivity.
Qed.

Section TargetFacts.

Variable script_dir : string.
Variable media : list string.
Variable creatable : string -> bool.

Lemma chosen_path_photobooth ds :
  exists p, chosen_path script_dir media creatable ds = p +:+ "/photobooth/".
Proof.
  unfold chosen_path, mount_path.
  destruct (last media) as [d|]; [destruct (usable creatable ds d)|];
    eexists; reflexivity.
Qed.

(** More directories, all of them creatable, change neither the answer nor
    whether its directory is there. *)
Lemma chosen_path_later (ds ds' : gset string) :
  (forall x, x ∈ ds -> x ∈ ds') ->
  (forall x, x ∈ ds' -> x ∈ ds \/ creatable x = true) ->
  chosen_path script_dir media creatable ds'
  = chosen_path script_dir media creatable ds.
Proof.
  intros Hs Hn. unfold chosen_path.
  destruct (last media) as [d|]; [|reflexivity].
  now rewrite (usable_later creatable ds ds' d Hs Hn).
Qed.

Lemma target_exists_later (ds ds' : gset string) :
  (forall x, x ∈ ds -> x ∈ ds') ->
  (forall x, x ∈ ds' -> x ∈ ds \/ creatable x = true) ->
  target_exists script_dir media creatable ds ->
  target_exists script_dir media creatable ds'.
Proof.
  intros Hs Hn. unfold target_exists.
  destruct (last media) as [d|]; [|apply Hs].
  rewrite (usable_later creatable ds ds' d Hs Hn).
  destruct (usable creatable ds d); [trivial | apply Hs].
Qed.

(** After [set_default_path] the directory it answered exists, when the
    target exists. *)
Lemma chosen_path_exists (ds ds' : gset string) :
  (forall x, x ∈ ds' <->
             x ∈ ds
             \/ (creatable x = true
                 /\ exists d, In d media /\ x = mount_path d)) ->
  target_exists script_dir media creatable ds ->
  chosen_path script_dir media creatable ds ∈ ds'.
Proof.
  intros Hd. unfold target_exists, chosen_path.
  destruct (last media) as [d|] eqn:Hl.
  - unfold usable, fallback_path.
    destruct (bool_decide (mount_path d ∈ ds)) eqn:Hex; cbn [orb].
    + intros _. apply Hd. left. now apply bool_decide_eq_true in Hex.
    + destruct (creatable (mount_path d)) eqn:Hc.
      * intros _. apply Hd. right. split; [exact Hc|]. exists d.
        split; [|reflexivity].
        apply list_elem_of_In, last_Some_elem_of, Hl.
      * intros H. apply Hd. now left.
  - intros H. apply Hd. now left.
Qed.

End TargetFacts.

(** ** The idle loop *)

Section IdleFacts.

Variable script_dir : string.
Variable media : list string.
Variable creatable : string -> bool.
Variable now : Py.datetime.

Lemma alter_alpha_id a (h : nat) (hp : gmap nat overlay) (x : nat) :
  alter (with_alpha a) h hp !! x ≫= ov_id = hp !! x ≫= ov_id.
Proof.
  destruct (decide (h = x)) as [->|Hne].
  - rewrite lookup_alter_eq. destruct (hp !! x); reflexivity.
  - rewrite lookup_alter_ne by exact Hne. reflexivity.
Qed.

(** One edge-less poll, the counter being [c mod 20] before it. *)
Lemma idle_poll_ok w l h c :
  pending w = None ->
  intro_image_2 l = PyOverlay h ->
  i l = c mod 20 ->
  exists hp,
    main_iteration script_dir media creatable now None l w
    = (Ok {| intro_image_1 := intro_image_1 l;
             intro_image_2 := intro_image_2 l;
             i := (c + 1) mod 20 |},
       {| trace := trace w ++ poll_events h (c + 1);
          heap := hp; shown := shown w; next_handle := next_handle w;
          dirs := dirs w; images := images w; pending := None |})
    /\ forall x, hp !! x ≫= ov_id = heap w !! x ≫= ov_id.
Proof.
  intros Hp H2 Hi.
  assert (Hc : 0 <= c mod 20 < 20) by (apply Z.mod_pos_bound; lia).
  assert (Hm : (c + 1) mod 20
               = if c mod 20 + 1 =? 20 then 0 else c mod 20 + 1).
  { destruct (Z.eqb_spec (c mod 20 + 1) 20); Z.div_mod_to_equations; lia. }
  unfold main_iteration, poll_events, blink_speed.
  change (2 * 10) with 20. rewrite H2, Hi, Hm.
  assert (Hwait : forall w0, pending w0 = None ->
            gpio_wait_for_edge pin_camera_button 100 None w0
            = (Ok None, emit (WaitForEdge pin_camera_button 100 None) w0)).
  { intros w0 H0. unfold gpio_wait_for_edge.
    etransitivity; [exec|]. reflexivity. }
  destruct (Z.eqb_spec (c mod 20 + 1) 10) as [E10|N10].
  - destruct (Z.eqb_spec (c mod 20 + 1) 20) as [E20|_]; [lia|].
    rewrite E10. cbn [Z.eqb Pos.eqb].
    eexists. split.
    + eapply bind_ok; [apply Hwait, Hp|]. cbv beta iota. wsimpl.
      etransitivity; [unfold set_alpha, gpio_output, sleep; exec|].
      wsimpl. rewrite <- !app_assoc, Hp. reflexivity.
    + intros x. apply alter_alpha_id.
  - destruct (Z.eqb_spec (c mod 20 + 1) 20) as [E20|N20].
    + cbn [Z.eqb].
      eexists. split.
      * eapply bind_ok; [apply Hwait, Hp|]. cbv beta iota. wsimpl.
        etransitivity; [unfold set_alpha, gpio_output, sleep; exec|].
        wsimpl. rewrite <- !app_assoc, Hp. reflexivity.
      * intros x. apply alter_alpha_id.
    + destruct (Z.eqb_spec (c mod 20 + 1) 0) as [E0|_]; [lia|].
      rewrite ?(proj2 (Z.eqb_neq _ _) N10).
      eexists. split.
      * eapply bind_ok; [apply Hwait, Hp|]. cbv beta iota. wsimpl.
        etransitivity; [unfold sleep; exec|].
        wsimpl. rewrite <- !app_assoc, Hp. reflexivity.
      * reflexivity.
Qed.

(** [k] edge-less polls in a row. *)
Lemma idle_loop_ok k : forall w l h c,
  pending w = None ->
  intro_image_2 l = PyOverlay h ->
  i l = c mod 20 ->
  exists hp,
    main_loop script_dir media creatable now (repeat None k) l w
    = (Ok {| intro_image_1 := intro_image_1 l;
             intro_image_2 := intro_image_2 l;
             i := (c + Z.of_nat k) mod 20 |},
       {| trace := trace w ++ idle_events h c k;
          heap := hp; shown := shown w; next_handle := next_handle w;
          dirs := dirs w; images := images w; pending := None |})
    /\ forall x, hp !! x ≫= ov_id = heap w !! x ≫= ov_id.
Proof.
  induction k as [|k IH]; intros w l h c Hp H2 Hi.
  - exists (heap w). split; [|reflexivity].
    cbn [repeat main_loop idle_events]. unfold mret, M_ret.
    rewrite app_nil_r, Z.add_0_r, <- Hi, <- Hp.
    destruct w, l; reflexivity.
  - destruct (idle_poll_ok w l h c Hp H2 Hi) as (hp1 & Hrun1 & Hid1).
    match type of Hrun1 with _ = (Ok ?l1, ?w1) =>
      destruct (IH w1 l1 h (c + 1) eq_refl H2 eq_refl)
        as (hp2 & Hrun2 & Hid2)
    end.
    cbn [trace heap shown next_handle dirs images pending
         intro_image_1 intro_image_2 i] in *.
    exists hp2. split.
    + cbn [repeat main_loop idle_events].
      eapply bind_ok; [exact Hrun1|]. rewrite Hrun2.
      rewrite <- app_assoc.
      replace (c + 1 + Z.of_nat k) with (c + Z.of_nat (S k)) by lia.
      reflexivity.
    + intros x. now rewrite Hid2, Hid1.
Qed.

End IdleFacts.

(** ** A session *)

Section SessionFacts.

Variable script_dir : string.
Variable media : list string.
Variable creatable : string -> bool.
Variable now : Py.datetime.

Hypothesis script_dir_absolute : Py.startswith_slash script_dir = true.

Lemma path_join_absolute a b :
  Py.startswith_slash b = true -> Py.path_join a b = b.
Proof. intros H. unfold Py.path_join. now rewrite H. Qed.

Lemma append_absolute a b :
  Py.startswith_slash a = true -> Py.startswith_slash (a +:+ b) = true.
Proof. destruct a; [discriminate | intros H; exact H]. Qed.

Lemma chosen_path_absolute ds :
  Py.startswith_slash (chosen_path script_dir media creatable ds) = true.
Proof.
  unfold chosen_path.
  destruct (last media) as [d|];
    [destruct (usable creatable ds d)|];
    first [apply mount_path_absolute
          | apply append_absolute, script_dir_absolute].
Qed.

Lemma lookup_capture (m : gmap string (Z * Z)) f k :
  k = f \/ m !! k = Some camera_resolution ->
  <[f := camera_resolution]> m !! k = Some camera_resolution.
Proof.
  intros H. destruct (decide (f = k)) as [->|Hne].
  - apply lookup_insert_eq.
  - rewrite lookup_insert_ne by exact Hne.
    destruct H as [->|H]; [congruence | exact H].
Qed.

Lemma asset_present w name :
  assets_present script_dir w ->
  In name asset_names ->
  is_Some (images w !! Py.path_join script_dir
                         ("Assets/" +:+ name +:+ ".png")).
Proof.
  unfold assets_present. rewrite Forall_forall. intros H Hin.
  apply H, list_elem_of_In, Hin.
Qed.

Lemma photo_screen_ok w k sz :
  pending w = None ->
  shown w = [] ->
  images w !! Py.path_join script_dir
                ("Assets/get_ready_" +:+ Py.str k +:+ ".png") = Some sz ->
  let name := "Assets/get_ready_" +:+ Py.str k +:+ ".png" in
  let file := Py.path_join script_dir name in
  photo_screen script_dir k w
  = (Ok tt,
     {| trace := trace w ++ flash_events (next_handle w) file name sz 3 2;
        heap := heap_add (next_handle w)
                  (new_overlay file (pad_size sz) sz) 3 (heap w);
        shown := [];
        next_handle := S (next_handle w); dirs := dirs w;
        images := images w; pending := None |}).
Proof.
  intros Hp Hs Him name file. unfold photo_screen.
  eapply bind_ok.
  { apply overlay_image_timed with (sz := sz); [exact Hp | lia | exact Him]. }
  cbv zeta. rewrite remove_overlay_sentinel. rewrite Hs.
  cbn [app list_remove]. rewrite Nat.eqb_refl. reflexivity.
Qed.

(** One pass through the loop on a button edge, from the idle state. *)
Lemma session_ok w l h1 h2 channel :
  pending w = None ->
  intro_image_1 l = PyOverlay h1 ->
  intro_image_2 l = PyOverlay h2 ->
  shown w = [h1; h2] ->
  id_of w h1 = Some 3 ->
  id_of w h2 = Some 4 ->
  assets_present script_dir w ->
  target_exists script_dir media creatable (dirs w) ->
  let n := next_handle w in
  let path := chosen_path script_dir media creatable (dirs w) in
  exists storage a hp ds,
    main_iteration script_dir media creatable now (Some channel) l w
    = (Ok {| intro_image_1 := PyOverlay (n + 8);
             intro_image_2 := PyOverlay (n + 9);
             i := 2 |},
       {| trace := trace w
                   ++ session_events script_dir path (stem now) channel
                        h1 h2 n storage a;
          heap := hp; shown := [(n + 8)%nat; (n + 9)%nat];
          next_handle := (n + 10)%nat; dirs := ds;
          images :=
            <[photo_file path (stem now) 3 := camera_resolution]>
              (<[photo_file path (stem now) 2 := camera_resolution]>
                 (<[photo_file path (stem now) 1 := camera_resolution]>
                    (images w)));
          pending := None |})
    /\ forallb storage_event storage = true
    /\ hp !! (n + 8)%nat ≫= ov_id = Some 3
    /\ hp !! (n + 9)%nat ≫= ov_id = Some 4
    /\ forall x, x ∈ ds <->
                 x ∈ dirs w
                 \/ (creatable x = true
                     /\ exists d, In d media /\ x = mount_path d).
Proof.
  intros Hp H1 H2 Hs Hid1 Hid2 Ha Htarget n path.
  unfold id_of in Hid1, Hid2.
  set (f1 := photo_file path (stem now) 1).
  set (f2 := photo_file path (stem now) 2).
  set (f3 := photo_file path (stem now) 3).
  set (im1 := <[f1 := camera_resolution]> (images w)).
  set (im2 := <[f2 := camera_resolution]> im1).
  set (im3 := <[f3 := camera_resolution]> im2).
  assert (A0 : forall name, In name asset_names ->
            is_Some (images w !! Py.path_join script_dir
                                   ("Assets/" +:+ name +:+ ".png")))
    by (intros; now apply asset_present).
  assert (A1 : forall name, In name asset_names ->
            is_Some (im1 !! Py.path_join script_dir
                              ("Assets/" +:+ name +:+ ".png"))).
  { intros name Hn. apply lookup_insert_is_Some'. right. now apply A0. }
  assert (A2 : forall name, In name asset_names ->
            is_Some (im2 !! Py.path_join script_dir
                              ("Assets/" +:+ name +:+ ".png"))).
  { intros name Hn. apply lookup_insert_is_Some'. right. now apply A1. }
  assert (A3 : forall name, In name asset_names ->
            is_Some (im3 !! Py.path_join script_dir
                              ("Assets/" +:+ name +:+ ".png"))).
  { intros name Hn. apply lookup_insert_is_Some'. right. now apply A2. }
  destruct (A0 "get_ready_1") as [g1 Hg1]; [cbn; tauto|].
  destruct (A1 "get_ready_2") as [g2 Hg2]; [cbn; tauto|].
  destruct (A2 "get_ready_3") as [g3 Hg3]; [cbn; tauto|].
  destruct (A3 "processing") as [sp Hsp]; [cbn; tauto|].
  destruct (A3 "all_done") as [sd Hsd]; [cbn; tauto|].
  destruct (A3 "intro_1") as [i1 Hi1]; [cbn; tauto|].
  destruct (A3 "intro_2") as [i2 Hi2]; [cbn; tauto|].
  assert (Habs : forall k,
            Py.path_join script_dir (photo_file path (stem now) k)
            = photo_file path (stem now) k).
  { intros k. apply path_join_absolute. unfold photo_file.
    apply append_absolute, chosen_path_absolute. }
  assert (P1 : im3 !! Py.path_join script_dir
                        (photo_file path (stem now) 1)
               = Some camera_resolution).
  { rewrite Habs. do 2 (apply lookup_capture; right).
    apply lookup_insert_eq. }
  assert (P2 : im3 !! Py.path_join script_dir
                        (photo_file path (stem now) 2)
               = Some camera_resolution).
  { rewrite Habs. apply lookup_capture; right. apply lookup_insert_eq. }
  assert (P3 : im3 !! Py.path_join script_dir
                        (photo_file path (stem now) 3)
               = Some camera_resolution).
  { rewrite Habs. apply lookup_insert_eq. }
  (* the edge, and the intro overlays taken down *)
  unfold main_iteration. rewrite H1, H2.
  set (w1 := {| trace := trace w
                  ++ [WaitForEdge pin_camera_button 100 (Some channel);
                      Log INFO "Button is pressed!"]
                  ++ hide_events h1 3 ++ hide_events h2 4;
                heap := heap w; shown := []; next_handle := n;
                dirs := dirs w; images := images w; pending := None |}).
  destruct (set_default_path_ok script_dir media creatable w1 eq_refl)
    as (storage & ds & Hpath & Hst).
  fold (chosen_path script_dir media creatable (dirs w1)) in Hpath.
  change (dirs w1) with (dirs w) in Hpath. fold path in Hpath.
  destruct (set_default_path_dirs script_dir creatable media w1 eq_refl)
    as (r' & evs' & ds' & Hpath' & Hdirs).
  rewrite Hpath in Hpath'. injection Hpath' as _ _ <-.
  change (dirs w1) with (dirs w) in Hdirs.
  assert (Hpe : path ∈ ds)
    by (apply (chosen_path_exists script_dir media creatable (dirs w) ds
                 Hdirs Htarget)).
  assert (Hdk : forall k, In k [1; 2; 3] ->
            Py.dir_of (photo_file path (stem now) k) = path).
  { intros k Hk.
    destruct (chosen_path_photobooth script_dir media creatable (dirs w))
      as [p Hpp].
    unfold path. rewrite Hpp. apply dir_of_photo_file, Hk. }
  change (Py.range1 3) with [0; 1; 2]. cbn [for_each].
  destruct (playback_ok script_dir
              {| trace := (trace w1 ++ storage)
                          ++ capture_events script_dir path (stem now) n
                               {| sz_get_ready_1 := g1; sz_get_ready_2 := g2;
                                  sz_get_ready_3 := g3; sz_processing := sp;
                                  sz_all_done := sd; sz_intro_1 := i1;
                                  sz_intro_2 := i2 |};
                 heap := heap_add (n + 2)
                           (new_overlay
                              (Py.path_join script_dir
                                 "Assets/get_ready_3.png")
                              (pad_size g3) g3) 3
                           (heap_add (n + 1)
                              (new_overlay
                                 (Py.path_join script_dir
                                    "Assets/get_ready_2.png")
                                 (pad_size g2) g2) 3
                              (heap_add n
                                 (new_overlay
                                    (Py.path_join script_dir
                                       "Assets/get_ready_1.png")
                                    (pad_size g1) g1) 3 (heap w)));
                 shown := []; next_handle := (n + 3)%nat; dirs := ds;
                 images := im3; pending := None |}
              path (stem now) sp camera_resolution camera_resolution
              camera_resolution sd eq_refl ltac:(constructor)
              Hsp P1 P2 P3 Hsd)
    as (hp & Hplay & Hframe).
  cbn [trace heap shown next_handle dirs images pending] in Hplay, Hframe.
  exists storage,
    {| sz_get_ready_1 := g1; sz_get_ready_2 := g2; sz_get_ready_3 := g3;
       sz_processing := sp; sz_all_done := sd; sz_intro_1 := i1;
       sz_intro_2 := i2 |}.
  eexists. exists ds.
  split; [|split; [exact Hst|split; [|split; [|exact Hdirs]]]].
  - eapply bind_ok.
    { unfold gpio_wait_for_edge. etransitivity; [exec|]. reflexivity. }
    cbv beta iota. wsimpl.
    eapply bind_ok; [apply logging_ok|]. wsimpl.
    eapply bind_ok.
    { apply remove_overlay_ok with (i := 3); wsimpl;
        [exact Hp | rewrite Hs; cbn [existsb]; now rewrite Nat.eqb_refl
        | exact Hid1]. }
    wsimpl. rewrite Hs. cbn [list_remove]. rewrite Nat.eqb_refl.
    eapply bind_ok.
    { apply remove_overlay_ok with (i := 4); wsimpl;
        [reflexivity | cbn [existsb]; now rewrite Nat.eqb_refl
        | exact Hid2]. }
    wsimpl. cbn [list_remove]. rewrite Nat.eqb_refl.
    rewrite <- !app_assoc. cbn [app].
    eapply bind_ok; [exact Hpath|].
    eapply bind_ok.
    { unfold set_filename. cbv zeta. rewrite set_filename_stem.
      reflexivity. }
    (* the three shots *)
    eapply bind_ok.
    { eapply bind_ok.
      { eapply bind_ok.
        { apply photo_screen_ok with (sz := g1);
            [reflexivity | reflexivity | exact Hg1]. }
        cbv zeta. wsimpl.
        eapply bind_ok.
        { apply take_photo_ok; [reflexivity|]. cbn [dirs].
          rewrite Hdk by (cbn; auto). exact Hpe. }
        wsimpl. reflexivity. }
      cbv beta iota. wsimpl.
      eapply bind_ok.
      { eapply bind_ok.
        { apply photo_screen_ok with (sz := g2);
            [reflexivity | reflexivity | exact Hg2]. }
        cbv zeta. wsimpl.
        eapply bind_ok.
        { apply take_photo_ok; [reflexivity|]. cbn [dirs].
          rewrite Hdk by (cbn; auto). exact Hpe. }
        wsimpl. reflexivity. }
      cbv beta iota. wsimpl.
      eapply bind_ok.
      { eapply bind_ok.
        { apply photo_screen_ok with (sz := g3);
            [reflexivity | reflexivity | exact Hg3]. }
        cbv zeta. wsimpl.
        eapply bind_ok.
        { apply take_photo_ok; [reflexivity|]. cbn [dirs].
          rewrite Hdk by (cbn; auto). exact Hpe. }
        wsimpl. reflexivity. }
      cbv beta iota. wsimpl. reflexivity. }
    cbv beta iota. wsimpl.
    change (next_handle w1) with n. change (heap w1) with (heap w).
    change (images w1) with (images w).
    replace (S (S (S n))) with (n + 3)%nat by lia.
    replace (S (S n)) with (n + 2)%nat by lia.
    replace (S n) with (n + 1)%nat by lia.
    (* playback *)
    eapply bind_ok.
    { etransitivity; [|exact Hplay]. f_equal. f_equal.
      unfold capture_events.
      cbn [sz_get_ready_1 sz_get_ready_2 sz_get_ready_3].
      rewrite <- !app_assoc. reflexivity. }
    (* the new intro overlays *)
    eapply bind_ok.
    { apply overlay_image_keep with (sz := i1);
        [reflexivity | lia | exact Hi1]. }
    cbv beta zeta. wsimpl.
    eapply bind_ok.
    { apply overlay_image_keep with (sz := i2);
        [reflexivity | lia | exact Hi2]. }
    cbv beta zeta. wsimpl. unfold mret, M_ret.
    replace (n + 3 + 5)%nat with (n + 8)%nat by lia.
    replace (S (S (n + 8))) with (n + 10)%nat by lia.
    replace (S (n + 8)) with (n + 9)%nat by lia.
    subst w1. cbn [trace].
    unfold session_events, show_events.
    cbn [sz_processing sz_all_done sz_intro_1 sz_intro_2].
    rewrite <- !app_assoc. cbn [app]. reflexivity.
  - rewrite heap_add_other by lia. apply heap_add_id.
  - apply heap_add_id.
Qed.

End SessionFacts.

(** ** Summaries of events *)

Lemma captures_app a b : captures (a ++ b) = captures a ++ captures b.
Proof.
  induction a as [|e a IH]; [reflexivity|].
  destruct e; cbn [app captures]; rewrite IH; reflexivity.
Qed.

Lemma added_app a b : added (a ++ b) = added a ++ added b.
Proof.
  induction a as [|e a IH]; [reflexivity|].
  destruct e; cbn [app added]; rewrite IH; reflexivity.
Qed.

Lemma removed_app a b : removed (a ++ b) = removed a ++ removed b.
Proof.
  induction a as [|e a IH]; [reflexivity|].
  destruct e; cbn [app removed]; rewrite IH; reflexivity.
Qed.

Lemma storage_summary evs :
  forallb storage_event evs = true ->
  captures evs = [] /\ added evs = [] /\ removed evs = [].
Proof.
  induction evs as [|e evs IH]; [now repeat split|].
  cbn [forallb]. intros H. apply andb_prop in H as [He Hevs].
  destruct (IH Hevs) as (Hc & Ha & Hr).
  destruct e; try discriminate He; cbn [captures added removed]; auto.
Qed.

(** The idle state of a concrete world, by evaluation. *)
Ltac idle_by_evaluation :=
  exists 0%nat, 1%nat;
  repeat split; try (vm_compute; reflexivity); try (vm_compute; lia);
  unfold assets_present, asset_names;
  repeat constructor; vm_compute; eauto.

Lemma first_idle_is_idle :
  idle "/home/pi" (first_idle_world "/home/pi") first_idle_locals.
Proof. idle_by_evaluation. Qed.

(** ** The session cycle *)

Lemma append_inj a x y : a +:+ x = a +:+ y -> x = y.
Proof.
  induction a as [|c a IH]; [intros H; exact H|].
  rewrite !append_cons. intros H. injection H as H. exact (IH H).
Qed.

(** The three files of a session are different files. *)
Lemma photo_files_distinct path stem :
  NoDup [photo_file path stem 1; photo_file path stem 2;
         photo_file path stem 3].
Proof.
  assert (D12 : photo_file path stem 1 <> photo_file path stem 2).
  { intros H. do 2 apply append_inj in H. vm_compute in H. discriminate H. }
  assert (D13 : photo_file path stem 1 <> photo_file path stem 3).
  { intros H. do 2 apply append_inj in H. vm_compute in H. discriminate H. }
  assert (D23 : photo_file path stem 2 <> photo_file path stem 3).
  { intros H. do 2 apply append_inj in H. vm_compute in H. discriminate H. }
  repeat constructor; rewrite ?elem_of_cons, ?elem_of_nil; tauto.
Qed.

(** C2: from the idle state, when the directory the photos go to is there
    (a usable last entry of the listing, or an existing directory beside the
    script), one button edge runs a whole session and ends in the idle
    state again.  Exactly three files are captured, shots 1, 2
    and 3 in this order.  Ten overlays are made: three "get ready", one
    "processing", the three photos, one "done", and the two intro overlays of
    the next idle state.  Ten overlays are removed: the two intro overlays
    that were on screen and the first eight of those made.  What is on
    screen at the end is the new pair of intro overlays, held in the local
    variables, and nothing else. *)
Theorem session_cycle script_dir media creatable now w l channel :
  Py.startswith_slash script_dir = true ->
  idle script_dir w l ->
  target_exists script_dir media creatable (dirs w) ->
  let n := next_handle w in
  let path := chosen_path script_dir media creatable (dirs w) in
  let at_ name := Py.path_join script_dir name in
  exists l' w' evs,
    main_iteration script_dir media creatable now (Some channel) l w
    = (Ok l', w')
    /\ trace w' = trace w ++ evs
    /\ captures evs = [photo_file path (stem now) 1;
                       photo_file path (stem now) 2;
                       photo_file path (stem now) 3]
    /\ NoDup (captures evs)
    /\ added evs = [(n, at_ "Assets/get_ready_1.png");
                    ((n + 1)%nat, at_ "Assets/get_ready_2.png");
                    ((n + 2)%nat, at_ "Assets/get_ready_3.png");
                    ((n + 3)%nat, at_ "Assets/processing.png");
                    ((n + 4)%nat, at_ (photo_file path (stem now) 1));
                    ((n + 5)%nat, at_ (photo_file path (stem now) 2));
                    ((n + 6)%nat, at_ (photo_file path (stem now) 3));
                    ((n + 7)%nat, at_ "Assets/all_done.png");
                    ((n + 8)%nat, at_ "Assets/intro_1.png");
                    ((n + 9)%nat, at_ "Assets/intro_2.png")]
    /\ removed evs = shown w ++ [n; n + 1; n + 2; n + 3; n + 4; n + 5;
                                 n + 6; n + 7]%nat
    /\ shown w' = [(n + 8)%nat; (n + 9)%nat]
    /\ idle script_dir w' l'
    /\ target_exists script_dir media creatable (dirs w').
Proof.
  intros Habs (h1 & h2 & H1 & H2 & Hs & Hlt1 & Hlt2 & Hid1 & Hid2 & Hp & Ha)
    Htarget n path at_.
  destruct (session_ok script_dir media creatable now Habs w l h1 h2 channel
              Hp H1 H2 Hs Hid1 Hid2 Ha Htarget)
    as (storage & a & hp & ds & Hrun & Hst & Hn1 & Hn2 & Hdirs).
  fold n path in Hrun, Hn1, Hn2.
  destruct (storage_summary storage Hst) as (Sc & Sa & Sr).
  eexists _, _, _. split; [exact Hrun|]. cbn [trace shown].
  split; [reflexivity|].
  assert (Hc : captures (session_events script_dir path (stem now) channel
                           h1 h2 n storage a)
               = [photo_file path (stem now) 1; photo_file path (stem now) 2;
                  photo_file path (stem now) 3]).
  { unfold session_events, capture_events, playback_events, flash_events,
      show_events, hide_events, take_photo_events.
    cbn [app captures]. rewrite captures_app, Sc. reflexivity. }
  split; [exact Hc|]. split; [rewrite Hc; apply photo_files_distinct|].
  unfold session_events, capture_events, playback_events, flash_events,
    show_events, hide_events, take_photo_events.
  cbn [app].
  split; [|split; [|split; [|split]]].
  - cbn [added]. rewrite added_app, Sa. cbn [app added].
    replace (n + 3 + 1)%nat with (n + 4)%nat by lia.
    replace (n + 3 + 2)%nat with (n + 5)%nat by lia.
    replace (n + 3 + 3)%nat with (n + 6)%nat by lia.
    replace (n + 3 + 4)%nat with (n + 7)%nat by lia.
    reflexivity.
  - cbn [removed]. rewrite removed_app, Sr, Hs. cbn [app removed].
    replace (n + 3 + 1)%nat with (n + 4)%nat by lia.
    replace (n + 3 + 2)%nat with (n + 5)%nat by lia.
    replace (n + 3 + 3)%nat with (n + 6)%nat by lia.
    replace (n + 3 + 4)%nat with (n + 7)%nat by lia.
    reflexivity.
  - reflexivity.
  - exists (n + 8)%nat, (n + 9)%nat. unfold id_of.
    cbn [intro_image_1 intro_image_2 shown next_handle heap pending].
    repeat split; try assumption; try lia.
    unfold assets_present in *. cbn [images].
    eapply Forall_impl; [exact Ha|]. cbv beta. intros name Hn.
    do 3 (apply lookup_insert_is_Some'; right). exact Hn.
  - cbn [dirs].
    apply (target_exists_later script_dir media creatable (dirs w) ds);
      [| |exact Htarget].
    + intros x Hx. apply Hdirs. now left.
    + intros x Hx. apply Hdirs in Hx as [Hx|[Hx _]]; [now left | now right].
Qed.

Lemma session_cycle_witness :
  let script_dir := "/home/pi" in
  let media := ["USB1"] in
  let creatable := fun _ : string => true in
  let now := Py.Build_datetime 2024 1 1 12 0 0 123456 in
  let w := first_idle_world script_dir in
  let l := first_idle_locals in
  let n := next_handle w in
  let path := chosen_path script_dir media creatable (dirs w) in
  let at_ name := Py.path_join script_dir name in
  exists l' w' evs,
    main_iteration script_dir media creatable now (Some 17) l w
    = (Ok l', w')
    /\ trace w' = trace w ++ evs
    /\ captures evs = [photo_file path (stem now) 1;
                       photo_file path (stem now) 2;
                       photo_file path (stem now) 3]
    /\ NoDup (captures evs)
    /\ added evs = [(n, at_ "Assets/get_ready_1.png");
                    ((n + 1)%nat, at_ "Assets/get_ready_2.png");
                    ((n + 2)%nat, at_ "Assets/get_ready_3.png");
                    ((n + 3)%nat, at_ "Assets/processing.png");
                    ((n + 4)%nat, at_ (photo_file path (stem now) 1));
                    ((n + 5)%nat, at_ (photo_file path (stem now) 2));
                    ((n + 6)%nat, at_ (photo_file path (stem now) 3));
                    ((n + 7)%nat, at_ "Assets/all_done.png");
                    ((n + 8)%nat, at_ "Assets/intro_1.png");
                    ((n + 9)%nat, at_ "Assets/intro_2.png")]
    /\ removed evs = shown w ++ [n; n + 1; n + 2; n + 3; n + 4; n + 5;
                                 n + 6; n + 7]%nat
    /\ shown w' = [(n + 8)%nat; (n + 9)%nat]
    /\ idle script_dir w' l'
    /\ target_exists script_dir media creatable (dirs w').
Proof.
  intros script_dir media creatable now w l n path at_.
  apply (session_cycle script_dir media creatable now w l 17).
  - reflexivity.
  - idle_by_evaluation.
  - vm_compute. exact I.
Defined.

(** ** The blink of the idle screen *)

Lemma poll_events_period h t : poll_events h (t + 20) = poll_events h t.
Proof.
  unfold poll_events, blink_speed. change (2 * 10) with 20.
  replace ((t + 20) mod 20) with (t mod 20); [reflexivity|].
  replace (t + 20) with (t + 1 * 20) by lia. now rewrite Z_mod_plus_full.
Qed.

Lemma idle_events_period h k : forall c,
  idle_events h (c + 20) k = idle_events h c k.
Proof.
  induction k as [|k IH]; intros c; cbn [idle_events]; [reflexivity|].
  replace (c + 20 + 1) with (c + 1 + 20) by lia.
  now rewrite poll_events_period, IH.
Qed.

Lemma idle_events_app h a b : forall c,
  idle_events h c (a + b)
  = idle_events h c a ++ idle_events h (c + Z.of_nat a) b.
Proof.
  induction a as [|a IH]; intros c.
  - cbn [Nat.add idle_events app]. now rewrite Z.add_0_r.
  - cbn [Nat.add idle_events]. rewrite IH, <- app_assoc.
    replace (c + 1 + Z.of_nat a) with (c + Z.of_nat (S a)) by lia.
    reflexivity.
Qed.

(** C7: in the idle loop with [blink_speed = 10], from counter 0, [k] polls
    without an edge leave the counter at [k mod 20]; what happens is
    [idle_events h 0 k]: the poll that brings the count of edge-less polls
    to 10 modulo 20 sets the alpha of the second intro overlay to 255 and
    the light on, the poll that brings it to 0 modulo 20 sets the alpha to 0
    and the light off.  The first twenty polls are nine quiet polls, the
    raising poll, nine quiet polls and the lowering poll, and the pattern
    repeats every twenty polls. *)
Theorem idle_blink script_dir media creatable now w l h k :
  pending w = None ->
  intro_image_2 l = PyOverlay h ->
  i l = 0 ->
  exists l' w',
    main_loop script_dir media creatable now (repeat None k) l w = (Ok l', w')
    /\ i l' = Z.of_nat k mod (2 * blink_speed)
    /\ trace w' = trace w ++ idle_events h 0 k
    /\ idle_events h 0 20
       = concat (repeat quiet_poll 9) ++ raise_poll h
         ++ concat (repeat quiet_poll 9) ++ lower_poll h
    /\ forall m, idle_events h 0 (20 + m)
                 = idle_events h 0 20 ++ idle_events h 0 m.
Proof.
  intros Hp H2 Hi.
  destruct (idle_loop_ok script_dir media creatable now k w l h 0 Hp H2 Hi)
    as (hp & Hrun & _).
  eexists _, _. split; [exact Hrun|].
  cbn [i trace]. split; [reflexivity|]. split; [reflexivity|].
  split; [reflexivity|].
  intros m. rewrite idle_events_app.
  change (0 + Z.of_nat 20) with (0 + 20). now rewrite idle_events_period.
Qed.

Lemma idle_blink_witness :
  let script_dir := "/home/pi" in
  let media := ["USB1"] in
  let creatable := fun _ : string => true in
  let now := Py.Build_datetime 2024 1 1 12 0 0 123456 in
  let w := first_idle_world script_dir in
  let l := first_idle_locals in
  exists l' w',
    main_loop script_dir media creatable now (repeat None 25) l w
    = (Ok l', w')
    /\ i l' = Z.of_nat 25 mod (2 * blink_speed)
    /\ trace w' = trace w ++ idle_events 1 0 25
    /\ idle_events 1 0 20
       = concat (repeat quiet_poll 9) ++ raise_poll 1
         ++ concat (repeat quiet_poll 9) ++ lower_poll 1
    /\ forall m, idle_events 1 0 (20 + m)
                 = idle_events 1 0 20 ++ idle_events 1 0 m.
Proof.
  intros script_dir media creatable now w l.
  apply (idle_blink script_dir media creatable now w l 1%nat 25).
  - reflexivity.
  - reflexivity.
  - reflexivity.
Defined.

(** C10: a session that runs to its end (the directory the photos go to
    is there) leaves the counter at 2, the last value of the loop
    variable of the three shots, not at 0.  The polls without an edge that
    follow are those of a loop that has already counted two: the eighth
    makes the overlay opaque and puts the light on, after seven quiet ones;
    after eighteen polls the counter is at 0 again and the loop goes on as
    from a counter of 0. *)
Theorem counter_after_session script_dir media creatable now w l channel :
  Py.startswith_slash script_dir = true ->
  idle script_dir w l ->
  target_exists script_dir media creatable (dirs w) ->
  exists l1 w1 h,
    main_iteration script_dir media creatable now (Some channel) l w
    = (Ok l1, w1)
    /\ intro_image_2 l1 = PyOverlay h
    /\ i l1 = 2
    /\ (forall k, exists l2 w2,
          main_loop script_dir media creatable now (repeat None k) l1 w1
          = (Ok l2, w2)
          /\ trace w2 = trace w1 ++ idle_events h 2 k
          /\ i l2 = (2 + Z.of_nat k) mod (2 * blink_speed))
    /\ idle_events h 2 8 = concat (repeat quiet_poll 7) ++ raise_poll h
    /\ idle_events h 2 18
       = concat (repeat quiet_poll 7) ++ raise_poll h
         ++ concat (repeat quiet_poll 9) ++ lower_poll h
    /\ forall m, idle_events h 2 (18 + m)
                 = idle_events h 2 18 ++ idle_events h 0 m.
Proof.
  intros Habs (h1 & h2 & H1 & H2 & Hs & Hlt1 & Hlt2 & Hid1 & Hid2 & Hp & Ha)
    Htarget.
  destruct (session_ok script_dir media creatable now Habs w l h1 h2 channel
              Hp H1 H2 Hs Hid1 Hid2 Ha Htarget)
    as (storage & a & hp & ds & Hrun & _).
  eexists _, _, _. split; [exact Hrun|].
  cbn [intro_image_2 i]. split; [reflexivity|]. split; [reflexivity|].
  split; [|split; [reflexivity|split; [reflexivity|]]].
  - intros k.
    match type of Hrun with _ = (Ok ?l1, ?w1) =>
      destruct (idle_loop_ok script_dir media creatable now k w1 l1
                  (next_handle w + 9)%nat 2 eq_refl eq_refl eq_refl)
        as (hp2 & Hrun2 & _)
    end.
    eexists _, _. split; [exact Hrun2|]. split; reflexivity.
  - intros m. rewrite idle_events_app.
    change (2 + Z.of_nat 18) with (0 + 20). now rewrite idle_events_period.
Qed.

Lemma counter_after_session_witness :
  let script_dir := "/home/pi" in
  let media := ["USB1"] in
  let creatable := fun _ : string => true in
  let now := Py.Build_datetime 2024 1 1 12 0 0 123456 in
  let w := first_idle_world script_dir in
  let l := first_idle_locals in
  exists l1 w1 h,
    main_iteration script_dir media creatable now (Some 17) l w
    = (Ok l1, w1)
    /\ intro_image_2 l1 = PyOverlay h
    /\ i l1 = 2
    /\ (forall k, exists l2 w2,
          main_loop script_dir media creatable now (repeat None k) l1 w1
          = (Ok l2, w2)
          /\ trace w2 = trace w1 ++ idle_events h 2 k
          /\ i l2 = (2 + Z.of_nat k) mod (2 * blink_speed))
    /\ idle_events h 2 8 = concat (repeat quiet_poll 7) ++ raise_poll h
    /\ idle_events h 2 18
       = concat (repeat quiet_poll 7) ++ raise_poll h
         ++ concat (repeat quiet_poll 9) ++ lower_poll h
    /\ forall m, idle_events h 2 (18 + m)
                 = idle_events h 2 18 ++ idle_events h 0 m.
Proof.
  intros script_dir media creatable now w l.
  apply (counter_after_session script_dir media creatable now w l 17).
  - reflexivity.
  - idle_by_evaluation.
  - vm_compute. exact I.
Defined.

(** ** The choice of the output directory *)

(** C1: the listing [USB1], [USB2], where the directory can be made on
    [USB1] and not on [USB2].  Exactly one mount is usable, and the answer
    is the directory beside the script, not the one on [USB1]: the loop goes
    on after [USB1] and the failure on [USB2] clears the path. *)
Theorem set_default_path_loses_usable_mount :
  let creatable := fun p => String.eqb p "/media/pi/USB1/photobooth/" in
  let w := boot_world "/home/pi" in
  usable creatable (dirs w) "USB1" = true
  /\ usable creatable (dirs w) "USB2" = false
  /\ mount_path "USB1" = "/media/pi/USB1/photobooth/"
  /\ fst (set_default_path "/home/pi" ["USB1"; "USB2"] creatable w)
     = Ok "/home/pi/photobooth/".
Proof. vm_compute. repeat split. Qed.

(** ** Startup *)

Lemma main_start_ok script_dir w s1 s2 :
  pending w = None ->
  images w !! Py.path_join script_dir "Assets/intro_1.png" = Some s1 ->
  images w !! Py.path_join script_dir "Assets/intro_2.png" = Some s2 ->
  let n := next_handle w in
  main_start script_dir w
  = (Ok {| intro_image_1 := PyOverlay n;
           intro_image_2 := PyOverlay (n + 1); i := 0 |},
     {| trace := trace w
                 ++ [Log INFO "Main program started"; StartPreview]
                 ++ show_events n
                      (Py.path_join script_dir "Assets/intro_1.png")
                      "Assets/intro_1.png" s1 3
                 ++ show_events (n + 1)
                      (Py.path_join script_dir "Assets/intro_2.png")
                      "Assets/intro_2.png" s2 4;
        heap := heap_add (n + 1)
                  (new_overlay (Py.path_join script_dir "Assets/intro_2.png")
                     (pad_size s2) s2) 4
                  (heap_add n
                     (new_overlay
                        (Py.path_join script_dir "Assets/intro_1.png")
                        (pad_size s1) s1) 3 (heap w));
        shown := shown w ++ [n; (n + 1)%nat];
        next_handle := (n + 2)%nat; dirs := dirs w; images := images w;
        pending := None |}).
Proof.
  intros Hp H1 H2 n. unfold main_start.
  eapply bind_ok; [apply logging_ok|].
  eapply bind_ok; [apply call_ok; exact Hp|]. wsimpl.
  eapply bind_ok.
  { apply overlay_image_keep with (sz := s1); [exact Hp | lia | exact H1]. }
  cbv beta zeta. wsimpl.
  eapply bind_ok.
  { apply overlay_image_keep with (sz := s2); [reflexivity | lia | exact H2]. }
  cbv beta zeta. wsimpl. unfold mret, M_ret, show_events. fold n.
  replace (S (S n)) with (n + 2)%nat by lia.
  replace (S n) with (n + 1)%nat by lia.
  rewrite <- !app_assoc. cbn [app]. reflexivity.
Qed.

(** C4: with nothing on screen, the assets in place and no fault, a script
    that reads the button low at startup logs it and exits: no camera, no
    preview, no overlay, no wait for an edge.  A script that reads another
    level sets the camera up, starts the preview, puts up the two intro
    overlays and is in its loop, in the idle state with the counter at 0. *)
Theorem startup_guard script_dir media creatable now answers w :
  pending w = None ->
  shown w = [] ->
  assets_present script_dir w ->
  (exists w',
     script script_dir media creatable now GPIO_LOW answers w = (Exited, w')
     /\ trace w'
        = trace w ++ gpio_events GPIO_LOW
          ++ [Log INFO "Exiting - the button was pressed during startup"]
     /\ shown w' = [])
  /\ (forall button, button <> GPIO_LOW ->
      exists l0 w0 s1 s2,
        script script_dir media creatable now button answers w
        = on_exit (main_loop script_dir media creatable now answers l0 w0)
        /\ trace w0
           = trace w ++ gpio_events button
             ++ startup_events script_dir (next_handle w) s1 s2
        /\ i l0 = 0
        /\ idle script_dir w0 l0).
Proof.
  intros Hp Hs Ha.
  assert (Hgpio : forall button,
            (gpio_setup;; call (GpioInput pin_camera_button button)) w
            = (Ok tt,
               {| trace := trace w ++ gpio_events button;
                  heap := heap w; shown := shown w;
                  next_handle := next_handle w; dirs := dirs w;
                  images := images w; pending := None |})).
  { intros button. unfold gpio_setup.
    etransitivity; [exec|]. wsimpl.
    rewrite <- !app_assoc, Hp. reflexivity. }
  split.
  - eexists. unfold script. rewrite Hgpio.
    change (GPIO_LOW =? GPIO_LOW) with true. cbv iota.
    split; [reflexivity|]. wsimpl.
    split; [now rewrite <- app_assoc | exact Hs].
  - intros button Hb.
    destruct (asset_present script_dir w "intro_1" Ha) as [s1 H1];
      [cbn; tauto|].
    destruct (asset_present script_dir w "intro_2" Ha) as [s2 H2];
      [cbn; tauto|].
    eexists _, _, s1, s2. unfold script. rewrite Hgpio.
    destruct (Z.eqb_spec button GPIO_LOW) as [|_]; [contradiction|].
    rewrite call_ok by reflexivity. wsimpl.
    assert (Hcam : forall w0, pending w0 = None ->
              camera_setup w0
              = (Ok tt,
                 {| trace := trace w0
                      ++ [CameraConfig "rotation" "180";
                          CameraConfig "resolution" "(1920, 1120)";
                          CameraConfig "annotate_text_size" "100";
                          CameraConfig "annotate_background" "blue";
                          CameraConfig "annotate_foreground" "yellow"];
                    heap := heap w0; shown := shown w0;
                    next_handle := next_handle w0; dirs := dirs w0;
                    images := images w0; pending := None |})).
    { intros w0 H0. unfold camera_setup.
      etransitivity; [exec|]. wsimpl.
      rewrite <- !app_assoc, H0. reflexivity. }
    rewrite Hcam by reflexivity. wsimpl.
    unfold run_main, main.
    split; [|split; [|split]].
    + f_equal. eapply bind_ok.
      { apply main_start_ok with (s1 := s1) (s2 := s2);
          [reflexivity | exact H1 | exact H2]. }
      cbv zeta. wsimpl. reflexivity.
    + cbn [trace]. unfold startup_events.
      rewrite <- !app_assoc. cbn [app]. reflexivity.
    + reflexivity.
    + exists (next_handle w), (next_handle w + 1)%nat. unfold id_of.
      cbn [intro_image_1 intro_image_2 shown next_handle heap pending].
      rewrite Hs.
      repeat split; try lia.
      * rewrite heap_add_other by lia. apply heap_add_id.
      * apply heap_add_id.
      * exact Ha.
Qed.

Lemma startup_guard_witness :
  let script_dir := "/home/pi" in
  let media := ["USB1"] in
  let creatable := fun _ : string => true in
  let now := Py.Build_datetime 2024 1 1 12 0 0 123456 in
  let answers := [None; Some 17] in
  let w := boot_world script_dir in
  (exists w',
     script script_dir media creatable now GPIO_LOW answers w = (Exited, w')
     /\ trace w'
        = trace w ++ gpio_events GPIO_LOW
          ++ [Log INFO "Exiting - the button was pressed during startup"]
     /\ shown w' = [])
  /\ (forall button, button <> GPIO_LOW ->
      exists l0 w0 s1 s2,
        script script_dir media creatable now button answers w
        = on_exit (main_loop script_dir media creatable now answers l0 w0)
        /\ trace w0
           = trace w ++ gpio_events button
             ++ startup_events script_dir (next_handle w) s1 s2
        /\ i l0 = 0
        /\ idle script_dir w0 l0).
Proof.
  intros script_dir media creatable now answers w.
  apply (startup_guard script_dir media creatable now answers w).
  - reflexivity.
  - reflexivity.
  - unfold assets_present, asset_names.
    repeat constructor; vm_compute; eauto.
Defined.

(** ** Faults *)

(** C9: whatever exception [main] raises, wherever it comes from, the last
    block logs it, logs the end of the session, stops the preview, releases
    the GPIO and exits, provided the environment raises nothing more.  No
    edge is waited for and nothing is captured after the exception: there is
    no retry.  An operator interrupt is logged as a warning, any other
    exception as an error with its message. *)
Theorem faults_are_fatal script_dir media creatable now answers w e w1 :
  main script_dir media creatable now answers w = (Raise e, w1) ->
  pending w1 = None ->
  exists w2,
    run_main script_dir media creatable now answers w = (Exited, w2)
    /\ trace w2
       = trace w1
         ++ [fault_log e; Log INFO "End of session"; StopPreview; GpioCleanup]
    /\ fault_log KeyboardInterrupt = Log WARNING "keyboard interrupt"
    /\ forall msg,
         fault_log (Exception msg) = Log ERROR ("Unexpected error: " +:+ msg).
Proof.
  intros Hmain Hp. unfold run_main, on_exit. rewrite Hmain.
  assert (Hh : handler e w1 = (Ok tt, emit (fault_log e) w1))
    by (destruct e; reflexivity).
  assert (Hfin : (handler e;; finally) w1
                 = (Ok tt,
                    {| trace := trace w1
                         ++ [fault_log e; Log INFO "End of session";
                             StopPreview; GpioCleanup];
                       heap := heap w1; shown := shown w1;
                       next_handle := next_handle w1; dirs := dirs w1;
                       images := images w1; pending := None |})).
  { eapply bind_ok; [exact Hh|]. unfold finally.
    etransitivity; [exec|]. wsimpl.
    rewrite <- !app_assoc, Hp. reflexivity. }
  rewrite Hfin. eexists. split; [reflexivity|].
  cbn [trace]. repeat split.
Qed.

Lemma faults_are_fatal_witness :
  let script_dir := "/home/pi" in
  let media := ["USB1"] in
  let creatable := fun _ : string => true in
  let now := Py.Build_datetime 2024 1 1 12 0 0 123456 in
  let answers := [None; Some 17; None; None] in
  let w := interrupted_after 30 (boot_world script_dir) in
  let w1 := snd (main script_dir media creatable now answers w) in
  exists w2,
    run_main script_dir media creatable now answers w = (Exited, w2)
    /\ trace w2
       = trace w1
         ++ [fault_log KeyboardInterrupt; Log INFO "End of session";
             StopPreview; GpioCleanup]
    /\ fault_log KeyboardInterrupt = Log WARNING "keyboard interrupt"
    /\ forall msg,
         fault_log (Exception msg) = Log ERROR ("Unexpected error: " +:+ msg).
Proof.
  intros script_dir media creatable now answers w w1.
  apply (faults_are_fatal script_dir media creatable now answers w
           KeyboardInterrupt w1).
  - vm_compute. reflexivity.
  - vm_compute. reflexivity.
Defined.

(** * Further properties of the code *)

(** ** The output directory: which entry decides, and what is created *)

Lemma call_tick ev w k e :
  pending w = Some (S k, e) ->
  call ev w = (Ok tt, emit ev (set_pending (Some (k, e)) w)).
Proof. intros H. unfold call. now rewrite H. Qed.

Lemma call_fire ev w e :
  pending w = Some (O, e) -> call ev w = (Raise e, set_pending None w).
Proof. intros H. unfold call. now rewrite H. Qed.

(** X1: the last entry of the listing alone decides the answer of
    [set_default_path]: its [photobooth/] directory when that exists or can
    be made, the directory beside the script otherwise, whatever the
    entries before it are. *)
Theorem set_default_path_last_entry script_dir ms d creatable w :
  pending w = None ->
  exists w',
    set_default_path script_dir (ms ++ [d]) creatable w
    = (Ok (if usable creatable (dirs w) d then mount_path d
           else script_dir +:+ "/photobooth/"), w').
Proof.
  intros Hp.
  destruct (set_default_path_ok script_dir (ms ++ [d]) creatable w Hp)
    as (evs & ds' & Hrun & _).
  rewrite last_snoc in Hrun. eexists. exact Hrun.
Qed.

Lemma set_default_path_last_entry_witness :
  exists w',
    set_default_path "/home/pi" (["USB1"] ++ ["USB2"]) (fun _ => true)
      (boot_world "/home/pi")
    = (Ok (if usable (fun _ => true) (dirs (boot_world "/home/pi")) "USB2"
           then mount_path "USB2"
           else "/home/pi" +:+ "/photobooth/"), w').
Proof.
  apply (set_default_path_last_entry "/home/pi" ["USB1"] "USB2"
           (fun _ => true) (boot_world "/home/pi")).
  reflexivity.
Defined.

Lemma set_default_path_fallback_witness :
  exists w',
    set_default_path "/home/pi" ["USB1"; "USB2"] (fun _ => false)
      (boot_world "/home/pi")
    = (Ok ("/home/pi" +:+ "/photobooth/"), w').
Proof.
  apply (set_default_path_fallback "/home/pi" ["USB1"; "USB2"]
           (fun _ => false) (boot_world "/home/pi")).
  - reflexivity.
  - repeat constructor.
Defined.

(** X3: [set_default_path] makes the [photobooth/] directory of every entry
    of the listing on which it can be made, not only of the one it answers,
    and removes none: the directories afterwards are those from before and
    the creatable [photobooth/] directories of the entries. *)
Theorem set_default_path_creates_all script_dir media creatable w :
  pending w = None ->
  exists p w',
    set_default_path script_dir media creatable w = (Ok p, w')
    /\ forall x, x ∈ dirs w' <->
                 x ∈ dirs w
                 \/ (creatable x = true
                     /\ exists d, In d media /\ x = mount_path d).
Proof.
  intros Hp.
  destruct (set_default_path_dirs script_dir creatable media w Hp)
    as (r & evs & ds' & Hrun & Hd).
  eexists _, _. split; [exact Hrun|]. exact Hd.
Qed.

Lemma set_default_path_creates_all_witness :
  exists p w',
    set_default_path "/home/pi" ["USB1"; "USB2"] (fun _ => true)
      (boot_world "/home/pi") = (Ok p, w')
    /\ forall x, x ∈ dirs w' <->
                 x ∈ dirs (boot_world "/home/pi")
                 \/ ((fun _ => true) x = true
                     /\ exists d, In d ["USB1"; "USB2"] /\ x = mount_path d).
Proof.
  apply (set_default_path_creates_all "/home/pi" ["USB1"; "USB2"]
           (fun _ => true) (boot_world "/home/pi")).
  reflexivity.
Defined.

(** X4: asking twice gives the same answer: [set_default_path] run again
    in the world it left answers the same directory and makes no new
    directory. *)
Theorem set_default_path_twice script_dir media creatable w :
  pending w = None ->
  exists p w1 w2,
    set_default_path script_dir media creatable w = (Ok p, w1)
    /\ set_default_path script_dir media creatable w1 = (Ok p, w2)
    /\ dirs w2 = dirs w1.
Proof.
  intros Hp.
  destruct (set_default_path_ok script_dir media creatable w Hp)
    as (evs & ds1 & Hrun1 & _).
  destruct (set_default_path_dirs script_dir creatable media w Hp)
    as (r & evs' & ds1' & Hrun1' & Hd1).
  rewrite Hrun1 in Hrun1'. injection Hrun1' as _ _ <-.
  match type of Hrun1 with _ = (Ok _, ?w1) =>
    destruct (set_default_path_ok script_dir media creatable w1 eq_refl)
      as (evs2 & ds2 & Hrun2 & _);
    destruct (set_default_path_dirs script_dir creatable media w1 eq_refl)
      as (r2 & evs2' & ds2' & Hrun2' & Hd2)
  end.
  rewrite Hrun2 in Hrun2'. injection Hrun2' as _ _ <-.
  cbn [dirs] in Hrun2, Hd2.
  eexists _, _, _. split; [exact Hrun1|]. split.
  - rewrite Hrun2. f_equal. f_equal.
    destruct (last media) as [d|]; [|reflexivity].
    rewrite (usable_later creatable (dirs w) ds1 d); [reflexivity| |].
    + intros x Hx. apply Hd1. now left.
    + intros x Hx. apply Hd1 in Hx as [H|[H _]]; [now left | now right].
  - cbn [dirs]. apply set_eq. intros x. rewrite Hd2. split.
    + intros [H|(Hc & d & Hin & ->)]; [exact H|].
      apply Hd1. right. split; [exact Hc|]. now exists d.
    + intros H. now left.
Qed.

Lemma set_default_path_twice_witness :
  exists p w1 w2,
    set_default_path "/home/pi" ["USB1"; "USB2"]
      (fun p => String.eqb p "/media/pi/USB2/photobooth/")
      (boot_world "/home/pi") = (Ok p, w1)
    /\ set_default_path "/home/pi" ["USB1"; "USB2"]
         (fun p => String.eqb p "/media/pi/USB2/photobooth/") w1 = (Ok p, w2)
    /\ dirs w2 = dirs w1.
Proof.
  apply (set_default_path_twice "/home/pi" ["USB1"; "USB2"]
           (fun p => String.eqb p "/media/pi/USB2/photobooth/")
           (boot_world "/home/pi")).
  reflexivity.
Defined.

(** X5: the bare [except] of [set_default_path] catches whatever
    [os.makedirs] raises, an operator interrupt included: with one entry in
    the listing whose directory does not exist, an exception raised at the
    [os.makedirs] call does not leave [set_default_path]; it is logged as a
    failed creation and the answer is the directory beside the script. *)
Theorem makedirs_exception_is_swallowed script_dir d creatable e w :
  pending w = Some (1%nat, e) ->
  mount_path d ∉ dirs w ->
  exists w',
    set_default_path script_dir [d] creatable w
    = (Ok (script_dir +:+ "/photobooth/"), w')
    /\ trace w'
       = trace w
         ++ [Listdir "/media/pi/"; Log INFO "error creating dir";
             Log INFO ("Saving to: " +:+ script_dir +:+ "/photobooth/")]
    /\ dirs w' = dirs w
    /\ pending w' = None.
Proof.
  intros Hp Hex. unfold set_default_path. cbv zeta.
  eexists. split.
  - eapply bind_ok.
    { unfold os_listdir. eapply bind_ok; [apply call_tick, Hp|]. reflexivity. }
    cbn [for_each].
    eapply bind_ok.
    { eapply bind_ok.
      { unfold try_mount. cbv zeta. fold (mount_path d).
        eapply bind_ok.
        { unfold os_path_exists. eapply bind_ok; [reflexivity|].
          cbv beta. wsimpl. rewrite bool_decide_eq_false_2 by exact Hex.
          reflexivity. }
        cbn [negb]. unfold try_except.
        erewrite bind_raise_first;
          [|unfold os_makedirs; apply bind_raise_first, call_fire;
            reflexivity].
        reflexivity. }
      reflexivity. }
    cbn [String.eqb].
    eapply bind_ok; [apply logging_ok|]. reflexivity.
  - wsimpl. rewrite <- !app_assoc. repeat split.
Qed.

Lemma makedirs_exception_is_swallowed_witness :
  exists w',
    set_default_path "/home/pi" ["USB1"] (fun _ => true)
      (interrupted_after 1 (boot_world "/home/pi"))
    = (Ok ("/home/pi" +:+ "/photobooth/"), w')
    /\ trace w'
       = trace (interrupted_after 1 (boot_world "/home/pi"))
         ++ [Listdir "/media/pi/"; Log INFO "error creating dir";
             Log INFO ("Saving to: " +:+ "/home/pi" +:+ "/photobooth/")]
    /\ dirs w' = dirs (interrupted_after 1 (boot_world "/home/pi"))
    /\ pending w' = None.
Proof.
  apply (makedirs_exception_is_swallowed "/home/pi" "USB1" (fun _ => true)
           KeyboardInterrupt (interrupted_after 1 (boot_world "/home/pi"))).
  - reflexivity.
  - simpl. apply not_elem_of_empty.
Defined.

(** ** Overlays: what happens when a step fails *)

(** X6: when the image cannot be opened, [overlay_image] raises before it
    reaches the camera: no overlay is made and the screen is as it was. *)
Theorem overlay_image_missing_file script_dir name duration layer w :
  pending w = None ->
  images w !! Py.path_join script_dir name = None ->
  exists msg w',
    overlay_image script_dir name duration layer w
    = (Raise (Exception msg), w')
    /\ trace w' = trace w ++ [ImageOpen (Py.path_join script_dir name)]
    /\ shown w' = shown w
    /\ next_handle w' = next_handle w.
Proof.
  intros Hp Him. unfold overlay_image. cbv zeta.
  eexists _, _. split.
  - apply bind_raise_first. unfold image_open.
    eapply bind_ok; [apply call_ok, Hp|].
    eapply bind_ok; [reflexivity|]. cbv beta. wsimpl. rewrite Him.
    reflexivity.
  - repeat split.
Qed.

Lemma overlay_image_missing_file_witness :
  exists msg w',
    overlay_image "/home/pi" "Assets/welcome.png" 0 3 (boot_world "/home/pi")
    = (Raise (Exception msg), w')
    /\ trace w'
       = trace (boot_world "/home/pi")
         ++ [ImageOpen (Py.path_join "/home/pi" "Assets/welcome.png")]
    /\ shown w' = shown (boot_world "/home/pi")
    /\ next_handle w' = next_handle (boot_world "/home/pi").
Proof.
  apply (overlay_image_missing_file "/home/pi" "Assets/welcome.png" 0 3
           (boot_world "/home/pi")).
  - reflexivity.
  - vm_compute. reflexivity.
Defined.

(** X7: [overlay_image] with a duration has no [finally]: an exception
    raised by its [sleep] leaves [overlay_image] with the overlay still on
    screen, and nothing removes it. *)
Theorem overlay_image_interrupted_sleep script_dir name duration layer sz e w :
  pending w = Some (3%nat, e) ->
  0 < duration ->
  images w !! Py.path_join script_dir name = Some sz ->
  exists w',
    overlay_image script_dir name duration layer w = (Raise e, w')
    /\ trace w'
       = trace w
         ++ show_events (next_handle w) (Py.path_join script_dir name) name
              sz layer
    /\ shown w' = shown w ++ [next_handle w]
    /\ pending w' = None.
Proof.
  intros Hp Hd Him. unfold overlay_image. cbv zeta.
  eexists. split.
  - eapply bind_ok.
    { unfold image_open. eapply bind_ok; [apply call_tick, Hp|].
      eapply bind_ok; [reflexivity|]. cbv beta. wsimpl. rewrite Him.
      reflexivity. }
    cbv beta. wsimpl.
    eapply bind_ok.
    { unfold camera_add_overlay. eapply bind_ok; [reflexivity|].
      cbv beta. wsimpl.
      eapply bind_ok; [apply call_tick; reflexivity|]. wsimpl.
      eapply bind_ok; [reflexivity|]. reflexivity. }
    cbv beta. wsimpl.
    eapply bind_ok.
    { unfold set_layer. eapply bind_ok; [apply call_tick; reflexivity|].
      reflexivity. }
    cbv beta. wsimpl.
    eapply bind_ok; [reflexivity|]. cbv beta. wsimpl.
    eapply bind_ok; [apply logging_ok|]. wsimpl.
    destruct (Z.ltb_spec 0 duration) as [_|]; [|lia].
    apply bind_raise_first. unfold sleep. apply call_fire. reflexivity.
  - wsimpl. unfold show_events. rewrite <- !app_assoc. repeat split.
Qed.

Lemma overlay_image_interrupted_sleep_witness :
  let w := interrupted_after 3 (boot_world "/home/pi") in
  exists w',
    overlay_image "/home/pi" "Assets/processing.png" 2 3 w
    = (Raise KeyboardInterrupt, w')
    /\ trace w'
       = trace w
         ++ show_events (next_handle w)
              (Py.path_join "/home/pi" "Assets/processing.png")
              "Assets/processing.png" (screen_width, screen_height) 3
    /\ shown w' = shown w ++ [next_handle w]
    /\ pending w' = None.
Proof.
  intros w.
  apply (overlay_image_interrupted_sleep "/home/pi" "Assets/processing.png"
           2 3 (screen_width, screen_height) KeyboardInterrupt w).
  - reflexivity.
  - lia.
  - vm_compute. reflexivity.
Defined.

(** X12: [playback] of no photo: with [total_pics] at most 0 the loop does
    not run, [prev_overlay] is still [False], which is not [-1], and
    [remove_overlay(False)] raises; [playback] fails after the "processing"
    overlay, before the "done" overlay. *)
Theorem playback_without_photos script_dir total_pics path stem sp w :
  pending w = None ->
  total_pics <= 0 ->
  images w !! Py.path_join script_dir "Assets/processing.png" = Some sp ->
  exists msg w',
    playback script_dir total_pics path stem w = (Raise (Exception msg), w')
    /\ trace w'
       = trace w
         ++ flash_events (next_handle w)
              (Py.path_join script_dir "Assets/processing.png")
              "Assets/processing.png" sp 3 2.
Proof.
  intros Hp Hn Him. unfold playback.
  assert (Hr : Py.range2 1 (total_pics + 1) = []).
  { unfold Py.range2, Py.range3, Py.range_len. cbn [Z.ltb Z.compare].
    replace (total_pics + 1 - 1 + 1 - 1) with total_pics by lia.
    rewrite Z.div_1_r, Z.max_l by lia. reflexivity. }
  rewrite Hr. cbn [for_each].
  eexists _, _. split.
  - eapply bind_ok.
    { apply overlay_image_timed with (sz := sp); [exact Hp | lia | exact Him]. }
    cbv zeta. eapply bind_ok; [reflexivity|].
    apply bind_raise_first. unfold remove_overlay. cbn [py_ne Z.eqb negb].
    apply bind_raise_first. reflexivity.
  - reflexivity.
Qed.

Lemma playback_without_photos_witness :
  exists msg w',
    playback "/home/pi" 0 "/media/pi/USB1/photobooth/" "2024-01-01_12-00-00"
      (boot_world "/home/pi") = (Raise (Exception msg), w')
    /\ trace w'
       = trace (boot_world "/home/pi")
         ++ flash_events (next_handle (boot_world "/home/pi"))
              (Py.path_join "/home/pi" "Assets/processing.png")
              "Assets/processing.png" (screen_width, screen_height) 3 2.
Proof.
  apply (playback_without_photos "/home/pi" 0 "/media/pi/USB1/photobooth/"
           "2024-01-01_12-00-00" (screen_width, screen_height)
           (boot_world "/home/pi")).
  - reflexivity.
  - lia.
  - vm_compute. reflexivity.
Defined.

(** X13: padding is idempotent, and it leaves a size as it is exactly when
    the width is a multiple of 32 and the height a multiple of 16. *)
Theorem pad_size_idempotent sz :
  pad_size (pad_size sz) = pad_size sz
  /\ (pad_size sz = sz <-> fst sz mod 32 = 0 /\ snd sz mod 16 = 0).
Proof.
  destruct sz as [x y]. unfold pad_size. cbn [fst snd]. split.
  - f_equal; Z.div_mod_to_equations; lia.
  - split.
    + intros H. injection H as Hx Hy.
      split; Z.div_mod_to_equations; lia.
    + intros [Hx Hy]. f_equal; Z.div_mod_to_equations; lia.
Qed.

(** Run straight-line code in a world whose pending fault has a known
    countdown, to the call at which the fault fires. *)
Ltac run_fault :=
  lazymatch goal with
  | |- @mbind _ _ _ _ _ _ _ = _ =>
      first [ apply bind_raise_first; run_fault
            | eapply bind_ok; [ run_fault | cbv beta; wsimpl; run_fault ] ]
  | |- call _ _ = _ =>
      first [ apply call_fire; first [eassumption | reflexivity]
            | apply call_tick; first [eassumption | reflexivity]
            | apply call_ok; first [eassumption | reflexivity] ]
  | |- logging _ _ _ = _ => apply logging_ok
  | |- mret _ _ = _ => reflexivity
  | |- gets _ _ = _ => reflexivity
  | |- modify _ _ = _ => reflexivity
  end.

(** ** Taking a photo: an exception before the capture *)

(** X8: an exception raised during the countdown of [take_photo] or at the
    clearing of the annotation leaves [take_photo] at once, before the
    capture: no file is touched.  An exception raised by the exposure
    itself comes after the file was opened for writing: nothing is captured
    and the file is left emptied, no longer an image, even when a photo of
    that name was there before. *)
Theorem take_photo_interrupted n path stem k e w :
  pending w = Some (k, e) ->
  (k <= 7)%nat ->
  (k = 7%nat -> Py.dir_of (photo_file path stem n) ∈ dirs w) ->
  exists w' evs,
    take_photo n path stem w = (Raise e, w')
    /\ trace w' = trace w ++ evs
    /\ captures evs = []
    /\ images w'
       = if Nat.eqb k 7 then delete (photo_file path stem n) (images w)
         else images w.
Proof.
  intros Hp Hk Hd. unfold take_photo. cbv zeta.
  fold (photo_file path stem n).
  change (Py.range3 3 0 (-1)) with [3; 2; 1]. cbn [for_each].
  unfold camera_annotate_text, sleep.
  do 7 (destruct k as [|k];
        [ eexists _, _; split; [run_fault|]; wsimpl;
          rewrite <- ?app_assoc; cbn [app];
          split; [first [reflexivity | symmetry; apply app_nil_r]|];
          split; reflexivity |]).
  destruct k as [|k]; [|lia].
  eexists _, _. split.
  - rewrite bind_assoc_run.
    eapply bind_ok; [etransitivity; [run_fault | reflexivity]|].
    wsimpl. apply bind_raise_first. unfold camera_capture.
    eapply bind_ok; [reflexivity|]. cbv beta. wsimpl.
    rewrite bool_decide_eq_true_2 by (apply Hd; reflexivity).
    eapply bind_ok; [reflexivity|]. wsimpl.
    apply bind_raise_first, call_fire. reflexivity.
  - wsimpl. rewrite <- !app_assoc. cbn [app]. repeat split.
Qed.

Lemma take_photo_interrupted_witness :
  let path := "/media/pi/USB1/photobooth/" in
  let stem := "2024-01-01_12-00-00" in
  let w := set_dirs {[path]}
             (interrupted_after 7 (world_with_photos "/home/pi" path stem)) in
  exists w' evs,
    take_photo 1 path stem w = (Raise KeyboardInterrupt, w')
    /\ trace w' = trace w ++ evs
    /\ captures evs = []
    /\ images w'
       = if Nat.eqb 7 7 then delete (photo_file path stem 1) (images w)
         else images w.
Proof.
  intros path stem w.
  apply (take_photo_interrupted 1 path stem 7 KeyboardInterrupt w).
  - reflexivity.
  - lia.
  - intros _. vm_compute. reflexivity.
Defined.

(** ** The loop as a whole *)

Lemma poll_events_summary h t :
  captures (poll_events h t) = [] /\ added (poll_events h t) = []
  /\ removed (poll_events h t) = [] /\ waits (poll_events h t) = 1%nat.
Proof.
  unfold poll_events.
  destruct (_ =? blink_speed); [now repeat split|].
  destruct (_ =? 0); now repeat split.
Qed.

Lemma session_events_summary script_dir path stem channel h1 h2 n storage a :
  forallb storage_event storage = true ->
  let evs := session_events script_dir path stem channel h1 h2 n storage a in
  captures evs = [photo_file path stem 1; photo_file path stem 2;
                  photo_file path stem 3]
  /\ length (added evs) = 10%nat
  /\ length (removed evs) = 10%nat.
Proof.
  intros Hst evs. subst evs.
  destruct (storage_summary storage Hst) as (Sc & Sa & Sr).
  unfold session_events, capture_events, playback_events, flash_events,
    show_events, hide_events, take_photo_events.
  cbn [app captures added removed].
  rewrite captures_app, added_app, removed_app, Sc, Sa, Sr.
  repeat split.
Qed.

Section LoopFacts.

Variable script_dir : string.
Variable media : list string.
Variable creatable : string -> bool.
Variable now : Py.datetime.

Hypothesis script_dir_absolute : Py.startswith_slash script_dir = true.

(** An edge-less poll keeps the idle state and touches no directory. *)
Lemma poll_keeps_idle w l :
  idle script_dir w l ->
  0 <= i l < 20 ->
  exists l' w' evs,
    main_iteration script_dir media creatable now None l w = (Ok l', w')
    /\ idle script_dir w' l'
    /\ 0 <= i l' < 20
    /\ dirs w' = dirs w
    /\ trace w' = trace w ++ evs
    /\ captures evs = [] /\ added evs = [] /\ removed evs = []
    /\ waits evs = 1%nat.
Proof.
  intros (h1 & h2 & H1 & H2 & Hs & Hlt1 & Hlt2 & Hid1 & Hid2 & Hp & Ha) Hi.
  destruct (idle_poll_ok script_dir media creatable now w l h2 (i l) Hp H2)
    as (hp & Hrun & Hid).
  { symmetry. apply Z.mod_small. exact Hi. }
  destruct (poll_events_summary h2 (i l + 1)) as (Sc & Sa & Sr & Sw).
  eexists _, _, _. split; [exact Hrun|].
  cbn [i trace dirs].
  split; [|split; [|split; [reflexivity|split; [reflexivity|]]]].
  - exists h1, h2. unfold id_of in *.
    cbn [intro_image_1 intro_image_2 shown next_handle heap pending].
    rewrite !Hid. repeat split; assumption.
  - apply Z.mod_pos_bound. lia.
  - repeat split; assumption.
Qed.

(** An edge runs a session and comes back to the idle state, when the
    directory the photos go to is there; it is there afterwards too. *)
Lemma session_keeps_idle w l channel :
  idle script_dir w l ->
  target_exists script_dir media creatable (dirs w) ->
  exists l' w' evs,
    main_iteration script_dir media creatable now (Some channel) l w
    = (Ok l', w')
    /\ idle script_dir w' l'
    /\ 0 <= i l' < 20
    /\ target_exists script_dir media creatable (dirs w')
    /\ trace w' = trace w ++ evs
    /\ length (captures evs) = 3%nat
    /\ length (added evs) = 10%nat
    /\ length (removed evs) = 10%nat.
Proof.
  intros (h1 & h2 & H1 & H2 & Hs & Hlt1 & Hlt2 & Hid1 & Hid2 & Hp & Ha)
    Htarget.
  destruct (session_ok script_dir media creatable now script_dir_absolute
              w l h1 h2 channel Hp H1 H2 Hs Hid1 Hid2 Ha Htarget)
    as (storage & a & hp & ds & Hrun & Hst & Hn1 & Hn2 & Hdirs).
  destruct (session_events_summary script_dir
              (chosen_path script_dir media creatable (dirs w)) (stem now)
              channel h1 h2 (next_handle w) storage a Hst)
    as (Sc & Sa & Sr).
  eexists _, _, _. split; [exact Hrun|].
  cbn [i trace dirs].
  split; [|split; [lia|split; [|split; [reflexivity|]]]].
  - exists (next_handle w + 8)%nat, (next_handle w + 9)%nat. unfold id_of.
    cbn [intro_image_1 intro_image_2 shown next_handle heap pending].
    repeat split; try assumption; try lia.
    unfold assets_present in *. cbn [images].
    eapply Forall_impl; [exact Ha|]. cbv beta. intros name Hn.
    do 3 (apply lookup_insert_is_Some'; right). exact Hn.
  - apply (target_exists_later script_dir media creatable (dirs w) ds);
      [| |exact Htarget].
    + intros x Hx. apply Hdirs. now left.
    + intros x Hx. apply Hdirs in Hx as [Hx|[Hx _]]; [now left | now right].
  - rewrite Sc. repeat split; assumption.
Qed.

(** Any sequence of answers, from the idle state. *)
Lemma main_loop_keeps_idle answers : forall w l,
  idle script_dir w l ->
  0 <= i l < 20 ->
  target_exists script_dir media creatable (dirs w) ->
  exists l' w' evs,
    main_loop script_dir media creatable now answers l w = (Ok l', w')
    /\ idle script_dir w' l'
    /\ 0 <= i l' < 20
    /\ trace w' = trace w ++ evs
    /\ length (captures evs) = (3 * edges answers)%nat
    /\ length (added evs) = (10 * edges answers)%nat
    /\ length (removed evs) = (10 * edges answers)%nat.
Proof.
  induction answers as [|a answers IH]; intros w l Hidle Hi Htarget.
  - exists l, w, []. cbn [main_loop edges]. rewrite app_nil_r.
    repeat split; try assumption; try lia.
  - destruct a as [channel|].
    + destruct (session_keeps_idle w l channel Hidle Htarget)
        as (l1 & w1 & evs1 & Hrun1 & Hidle1 & Hi1 & Htarget1 & Ht1 & Hc1
            & Ha1 & Hr1).
      destruct (IH w1 l1 Hidle1 Hi1 Htarget1)
        as (l2 & w2 & evs2 & Hrun2 & Hidle2 & Hi2 & Ht2 & Hc2 & Ha2 & Hr2).
      exists l2, w2, (evs1 ++ evs2). cbn [main_loop edges].
      split; [eapply bind_ok; [exact Hrun1 | exact Hrun2]|].
      split; [exact Hidle2|]. split; [exact Hi2|].
      split; [rewrite Ht2, Ht1; now rewrite app_assoc|].
      rewrite captures_app, added_app, removed_app, !length_app.
      rewrite Hc1, Hc2, Ha1, Ha2, Hr1, Hr2. repeat split; lia.
    + destruct (poll_keeps_idle w l Hidle Hi)
        as (l1 & w1 & evs1 & Hrun1 & Hidle1 & Hi1 & Hd1 & Ht1 & Hc1 & Ha1
            & Hr1 & _).
      rewrite <- Hd1 in Htarget.
      destruct (IH w1 l1 Hidle1 Hi1 Htarget)
        as (l2 & w2 & evs2 & Hrun2 & Hidle2 & Hi2 & Ht2 & Hc2 & Ha2 & Hr2).
      exists l2, w2, (evs1 ++ evs2). cbn [main_loop edges].
      split; [eapply bind_ok; [exact Hrun1 | exact Hrun2]|].
      split; [exact Hidle2|]. split; [exact Hi2|].
      split; [rewrite Ht2, Ht1; now rewrite app_assoc|].
      rewrite captures_app, added_app, removed_app, !length_app.
      rewrite Hc1, Hc2, Ha1, Ha2, Hr1, Hr2. repeat split; lia.
Qed.

End LoopFacts.

(** X9: absent a fault, and with the directory the photos go to in place
    (a usable last entry of the listing, or an existing directory beside the
    script), the loop never ends and never leaves the idle state for good:
    from the idle state with the counter in range, any sequence
    of answers of the edge wait is run to its end without an exception and
    ends in the idle state, with two overlays on screen and the counter in
    range; three files are captured, ten overlays made and ten removed for
    each edge, and none for a timeout. *)
Theorem main_loop_returns_to_idle script_dir media creatable now answers w l :
  Py.startswith_slash script_dir = true ->
  idle script_dir w l ->
  0 <= i l < 2 * blink_speed ->
  target_exists script_dir media creatable (dirs w) ->
  exists l' w' evs,
    main_loop script_dir media creatable now answers l w = (Ok l', w')
    /\ idle script_dir w' l'
    /\ 0 <= i l' < 2 * blink_speed
    /\ length (shown w') = 2%nat
    /\ trace w' = trace w ++ evs
    /\ length (captures evs) = (3 * edges answers)%nat
    /\ length (added evs) = (10 * edges answers)%nat
    /\ length (removed evs) = (10 * edges answers)%nat.
Proof.
  intros Habs Hidle Hi Htarget.
  destruct (main_loop_keeps_idle script_dir media creatable now Habs answers
              w l Hidle Hi Htarget)
    as (l' & w' & evs & Hrun & Hidle' & Hi' & Ht & Hc & Ha & Hr).
  exists l', w', evs. repeat split; try assumption; try apply Hi'.
  destruct Hidle' as (h1 & h2 & _ & _ & Hs & _). now rewrite Hs.
Qed.

Lemma main_loop_returns_to_idle_witness :
  let script_dir := "/home/pi" in
  let media := ["USB1"] in
  let creatable := fun _ : string => true in
  let now := Py.Build_datetime 2024 1 1 12 0 0 123456 in
  let answers := [None; Some 17; None; Some 17] in
  let w := first_idle_world script_dir in
  let l := first_idle_locals in
  exists l' w' evs,
    main_loop script_dir media creatable now answers l w = (Ok l', w')
    /\ idle script_dir w' l'
    /\ 0 <= i l' < 2 * blink_speed
    /\ length (shown w') = 2%nat
    /\ trace w' = trace w ++ evs
    /\ length (captures evs) = (3 * edges answers)%nat
    /\ length (added evs) = (10 * edges answers)%nat
    /\ length (removed evs) = (10 * edges answers)%nat.
Proof.
  intros script_dir media creatable now answers w l.
  apply (main_loop_returns_to_idle script_dir media creatable now answers
           w l).
  - reflexivity.
  - idle_by_evaluation.
  - vm_compute. split; [discriminate | reflexivity].
  - vm_compute. exact I.
Defined.

(** X10: absent a fault, a script that reads the button not pressed never
    exits: with nothing on screen, the assets in place and the directory the
    photos go to in place (a usable last entry of the listing, or an
    existing directory beside the script), after any
    sequence of answers of the edge wait it is still in its loop, and has
    captured three files for each edge. *)
Theorem script_keeps_running script_dir media creatable now button answers w :
  Py.startswith_slash script_dir = true ->
  pending w = None ->
  shown w = [] ->
  assets_present script_dir w ->
  target_exists script_dir media creatable (dirs w) ->
  button <> GPIO_LOW ->
  exists w' evs,
    script script_dir media creatable now button answers w = (Running, w')
    /\ trace w' = trace w ++ evs
    /\ length (captures evs) = (3 * edges answers)%nat
    /\ length (shown w') = 2%nat.
Proof.
  intros Habs Hp Hs Ha Htarget Hb.
  destruct (asset_present script_dir w "intro_1" Ha) as [s1 H1];
    [cbn; tauto|].
  destruct (asset_present script_dir w "intro_2" Ha) as [s2 H2];
    [cbn; tauto|].
  unfold script.
  assert (Hgpio :
    (gpio_setup;; call (GpioInput pin_camera_button button)) w
    = (Ok tt,
       {| trace := trace w ++ gpio_events button;
          heap := heap w; shown := shown w;
          next_handle := next_handle w; dirs := dirs w;
          images := images w; pending := None |})).
  { unfold gpio_setup. etransitivity; [exec|]. wsimpl.
    rewrite <- !app_assoc, Hp. reflexivity. }
  rewrite Hgpio.
  destruct (Z.eqb_spec button GPIO_LOW) as [|_]; [contradiction|].
  rewrite call_ok by reflexivity. wsimpl.
  assert (Hcam : forall w0, pending w0 = None ->
            camera_setup w0
            = (Ok tt,
               {| trace := trace w0
                    ++ [CameraConfig "rotation" "180";
                        CameraConfig "resolution" "(1920, 1120)";
                        CameraConfig "annotate_text_size" "100";
                        CameraConfig "annotate_background" "blue";
                        CameraConfig "annotate_foreground" "yellow"];
                  heap := heap w0; shown := shown w0;
                  next_handle := next_handle w0; dirs := dirs w0;
                  images := images w0; pending := None |})).
  { intros w0 H0. unfold camera_setup.
    etransitivity; [exec|]. wsimpl.
    rewrite <- !app_assoc, H0. reflexivity. }
  rewrite Hcam by reflexivity. wsimpl.
  unfold run_main, main.
  match goal with |- context [on_exit (_ ?w0)] =>
    pose proof (main_start_ok script_dir w0 s1 s2 eq_refl H1 H2) as Hstart
  end.
  cbv zeta in Hstart.
  cbn [trace heap shown next_handle dirs images pending] in Hstart.
  match type of Hstart with _ = (Ok ?l0, ?w0) =>
    destruct (main_loop_keeps_idle script_dir media creatable now Habs
                answers w0 l0)
      as (l' & w' & evs & Hrun & Hidle' & _ & Ht & Hc & _)
  end.
  { exists (next_handle w), (next_handle w + 1)%nat. unfold id_of.
    cbn [intro_image_1 intro_image_2 shown next_handle heap pending].
    rewrite Hs. repeat split; try lia.
    - rewrite heap_add_other by lia. apply heap_add_id.
    - apply heap_add_id.
    - exact Ha. }
  { cbn [i]. lia. }
  { exact Htarget. }
  cbn [trace] in Ht.
  eexists w', _. split; [|split; [|split]].
  - erewrite bind_ok; [| exact Hstart | exact Hrun]. reflexivity.
  - rewrite Ht. rewrite <- !app_assoc. reflexivity.
  - unfold gpio_events, show_events.
    cbn [app captures]. exact Hc.
  - destruct Hidle' as (h1 & h2 & _ & _ & Hs' & _). now rewrite Hs'.
Qed.

Lemma script_keeps_running_witness :
  let script_dir := "/home/pi" in
  let media := ["USB1"] in
  let creatable := fun _ : string => true in
  let now := Py.Build_datetime 2024 1 1 12 0 0 123456 in
  let answers := [None; Some 17; None] in
  let w := boot_world script_dir in
  exists w' evs,
    script script_dir media creatable now GPIO_HIGH answers w = (Running, w')
    /\ trace w' = trace w ++ evs
    /\ length (captures evs) = (3 * edges answers)%nat
    /\ length (shown w') = 2%nat.
Proof.
  intros script_dir media creatable now answers w.
  apply (script_keeps_running script_dir media creatable now GPIO_HIGH
           answers w).
  - reflexivity.
  - reflexivity.
  - reflexivity.
  - unfold assets_present, asset_names.
    repeat constructor; vm_compute; eauto.
  - vm_compute. exact I.
  - discriminate.
Defined.

(** X11: when [PiCamera()] raises, whatever it raises, an operator
    interrupt included, the script logs an error and exits: the preview is
    not started, no overlay is made, no edge is waited for, and the GPIO
    set up before is not cleaned up. *)
Theorem camera_failure_exits script_dir media creatable now button answers
  e w :
  pending w = Some (4%nat, e) ->
  button <> GPIO_LOW ->
  exists w',
    script script_dir media creatable now button answers w = (Exited, w')
    /\ trace w'
       = trace w ++ gpio_events button
         ++ [Log ERROR "Error initializing the camera"]
    /\ shown w' = shown w.
Proof.
  intros Hp Hb. unfold script.
  assert (Hgpio :
    (gpio_setup;; call (GpioInput pin_camera_button button)) w
    = (Ok tt,
       {| trace := trace w ++ gpio_events button;
          heap := heap w; shown := shown w;
          next_handle := next_handle w; dirs := dirs w;
          images := images w; pending := Some (O, e) |})).
  { unfold gpio_setup. etransitivity; [run_fault|]. wsimpl.
    rewrite <- !app_assoc. reflexivity. }
  rewrite Hgpio.
  destruct (Z.eqb_spec button GPIO_LOW) as [|_]; [contradiction|].
  rewrite (call_fire CameraInit _ e) by reflexivity.
  eexists. split; [reflexivity|]. wsimpl.
  rewrite <- app_assoc. split; reflexivity.
Qed.

Lemma camera_failure_exits_witness :
  let w := interrupted_after 4 (boot_world "/home/pi") in
  exists w',
    script "/home/pi" ["USB1"] (fun _ => true)
      (Py.Build_datetime 2024 1 1 12 0 0 123456) GPIO_HIGH [None; Some 17] w
    = (Exited, w')
    /\ trace w'
       = trace w ++ gpio_events GPIO_HIGH
         ++ [Log ERROR "Error initializing the camera"]
    /\ shown w' = shown w.
Proof.
  intros w.
  apply (camera_failure_exits "/home/pi" ["USB1"] (fun _ => true)
           (Py.Build_datetime 2024 1 1 12 0 0 123456) GPIO_HIGH
           [None; Some 17] KeyboardInterrupt w).
  - reflexivity.
  - discriminate.
Defined.

(** ** The time a session takes *)

Lemma slept_app a b : slept (a ++ b) = slept a + slept b.
Proof.
  induction a as [|e a IH]; [reflexivity|].
  destruct e; cbn [app slept]; rewrite IH; lia.
Qed.

Lemma waits_app a b : waits (a ++ b) = (waits a + waits b)%nat.
Proof.
  induction a as [|e a IH]; [reflexivity|].
  destruct e; cbn [app waits]; rewrite IH; lia.
Qed.

Lemma storage_quiet evs :
  forallb storage_event evs = true -> slept evs = 0 /\ waits evs = O.
Proof.
  induction evs as [|e evs IH]; [now split|].
  cbn [forallb]. intros H. apply andb_prop in H as [He Hevs].
  destruct (IH Hevs) as (Hs & Hw).
  destruct e; try discriminate He; cbn [slept waits]; auto.
Qed.

(** X15: a session that runs to its end (the directory the photos go to
    is there) blocks the loop for 25 seconds of [sleep] (2 s of "get
    ready" and 3 s of countdown for each shot, 2 s of "processing", 2 s for
    each photo played back, 2 s of "done"), and the button is not looked at
    during that time: the only edge wait is the one that started the
    session. *)
Theorem session_blocks script_dir media creatable now w l channel :
  Py.startswith_slash script_dir = true ->
  idle script_dir w l ->
  target_exists script_dir media creatable (dirs w) ->
  exists l' w' evs,
    main_iteration script_dir media creatable now (Some channel) l w
    = (Ok l', w')
    /\ trace w' = trace w ++ evs
    /\ slept evs = 25000
    /\ waits evs = 1%nat
    /\ exists rest,
         evs = WaitForEdge pin_camera_button 100 (Some channel) :: rest.
Proof.
  intros Habs (h1 & h2 & H1 & H2 & Hs & Hlt1 & Hlt2 & Hid1 & Hid2 & Hp & Ha)
    Htarget.
  destruct (session_ok script_dir media creatable now Habs w l h1 h2 channel
              Hp H1 H2 Hs Hid1 Hid2 Ha Htarget)
    as (storage & a & hp & ds & Hrun & Hst & _).
  destruct (storage_quiet storage Hst) as (Ss & Sw).
  eexists _, _, _. split; [exact Hrun|]. cbn [trace].
  split; [reflexivity|].
  unfold session_events, capture_events, playback_events, flash_events,
    show_events, hide_events, take_photo_events.
  cbn [app slept waits].
  rewrite slept_app, waits_app, Ss, Sw. cbn [app slept waits].
  split; [reflexivity|]. split; [reflexivity|]. eexists. reflexivity.
Qed.

Lemma session_blocks_witness :
  let script_dir := "/home/pi" in
  let media := ["USB1"] in
  let creatable := fun _ : string => true in
  let now := Py.Build_datetime 2024 1 1 12 0 0 123456 in
  let w := first_idle_world script_dir in
  let l := first_idle_locals in
  exists l' w' evs,
    main_iteration script_dir media creatable now (Some 17) l w
    = (Ok l', w')
    /\ trace w' = trace w ++ evs
    /\ slept evs = 25000
    /\ waits evs = 1%nat
    /\ exists rest, evs = WaitForEdge pin_camera_button 100 (Some 17) :: rest.
Proof.
  intros script_dir media creatable now w l.
  apply (session_blocks script_dir media creatable now w l 17).
  - reflexivity.
  - idle_by_evaluation.
  - vm_compute. exact I.
Defined.

(** ** A session with no directory to write to *)



(** ** Stems of different timestamps *)

Lemma length_append_string a b :
  String.length (a +:+ b) = (String.length a + String.length b)%nat.
Proof.
  induction a as [|c a IH]; [reflexivity|].
  rewrite append_cons. cbn [String.length Nat.add]. now rewrite IH.
Qed.

Lemma zfill_length w : forall n, String.length (Py.zfill w n) = w.
Proof.
  induction w as [|w IH]; intros n; [reflexivity|].
  cbn [Py.zfill]. rewrite length_append_string, IH. cbn. lia.
Qed.

Lemma append_inj_length a : forall a' b b',
  String.length a = String.length a' ->
  a +:+ b = a' +:+ b' -> a = a' /\ b = b'.
Proof.
  induction a as [|c a IH]; intros [|c' a'] b b' Hl H;
    try discriminate Hl.
  - split; [reflexivity | exact H].
  - rewrite !append_cons in H. injection H as -> H.
    cbn [String.length] in Hl. injection Hl as Hl.
    destruct (IH a' b b' Hl H) as [-> ->]. now split.
Qed.

Lemma digit_inj a b : Py.digit a = Py.digit b -> a mod 10 = b mod 10.
Proof.
  unfold Py.digit. intros H.
  assert (Ha : 0 <= a mod 10 < 10) by (apply Z.mod_pos_bound; lia).
  assert (Hb : 0 <= b mod 10 < 10) by (apply Z.mod_pos_bound; lia).
  apply (f_equal nat_of_ascii) in H.
  rewrite !nat_ascii_embedding in H by lia. lia.
Qed.

Lemma zfill_inj w : forall a b,
  0 <= a < 10 ^ Z.of_nat w -> 0 <= b < 10 ^ Z.of_nat w ->
  Py.zfill w a = Py.zfill w b -> a = b.
Proof.
  induction w as [|w IH]; intros a b Ha Hb H.
  - change (10 ^ Z.of_nat 0) with 1 in *. lia.
  - rewrite Nat2Z.inj_succ, Z.pow_succ_r in Ha, Hb by lia.
    cbn [Py.zfill] in H.
    apply append_inj_length in H as [Hq Hr];
      [|now rewrite !zfill_length].
    injection Hr as Hr. apply digit_inj in Hr.
    assert (Hq' : a / 10 = b / 10).
    { apply IH; [| |exact Hq]; Z.div_mod_to_equations; lia. }
    Z.div_mod_to_equations. lia.
Qed.

(** X14: two sessions get the same stem exactly when they start in the
    same second: for timestamps with printable fields, [set_filename]
    answers the same stem if and only if the timestamps agree on year,
    month, day, hour, minute and second, whatever their microseconds. *)
Theorem set_filename_same_second a b w w' :
  printable a ->
  printable b ->
  fst (set_filename a w) = fst (set_filename b w') <-> same_second a b.
Proof.
  intros (Hy & Hmo & Hd & Hh & Hmi & Hs) (Hy' & Hmo' & Hd' & Hh' & Hmi' & Hs').
  unfold set_filename. cbv zeta. cbn [fst mret M_ret].
  unfold mret, M_ret. cbn [fst]. rewrite !set_filename_stem.
  unfold same_second. split.
  - intros H0. assert (H : stem a = stem b) by congruence. clear H0.
    unfold stem in H.
    apply append_inj_length in H as [E1 H]; [|now rewrite !zfill_length].
    apply append_inj in H.
    apply append_inj_length in H as [E2 H]; [|now rewrite !zfill_length].
    apply append_inj in H.
    apply append_inj_length in H as [E3 H]; [|now rewrite !zfill_length].
    apply append_inj in H.
    apply append_inj_length in H as [E4 H]; [|now rewrite !zfill_length].
    apply append_inj in H.
    apply append_inj_length in H as [E5 E6]; [|now rewrite !zfill_length].
    apply append_inj in E6.
    apply zfill_inj in E1; [|assumption|assumption].
    apply zfill_inj in E2; [|assumption|assumption].
    apply zfill_inj in E3; [|assumption|assumption].
    apply zfill_inj in E4; [|assumption|assumption].
    apply zfill_inj in E5; [|assumption|assumption].
    apply zfill_inj in E6; [|assumption|assumption].
    repeat split; assumption.
  - intros (E1 & E2 & E3 & E4 & E5 & E6). unfold stem.
    now rewrite E1, E2, E3, E4, E5, E6.
Qed.

Lemma set_filename_same_second_witness :
  let a := Py.Build_datetime 2024 1 1 12 0 0 123456 in
  let b := Py.Build_datetime 2024 1 1 12 0 0 999 in
  fst (set_filename a (boot_world "/home/pi"))
  = fst (set_filename b (boot_world "/home/pi"))
  <-> same_second a b.
Proof.
  intros a b.
  apply (set_filename_same_second a b (boot_world "/home/pi")
           (boot_world "/home/pi")).
  - unfold printable. simpl. lia.
  - unfold printable. simpl. lia.
Defined.

(** ** Exceptions outside the reach of the handler *)

(** X17: before the camera is made nothing catches: an exception raised by
    [GPIO.setmode], [GPIO.setup] or [GPIO.input] ends the script with that
    exception, without a log line, whatever the button. *)
Theorem gpio_fault_is_uncaught script_dir media creatable now button answers
  k e w :
  pending w = Some (k, e) ->
  (k <= 3)%nat ->
  exists w' evs,
    script script_dir media creatable now button answers w = (Crashed e, w')
    /\ trace w' = trace w ++ evs
    /\ evs = firstn k (gpio_events button).
Proof.
  intros Hp Hk. unfold script, gpio_setup.
  do 4 (destruct k as [|k];
        [ match goal with
          | |- context [match ?m w with _ => _ end] =>
              let H := fresh in
              eassert (H : m w = (Raise e, _)) by run_fault;
              rewrite H
          end;
          eexists _, _; split; [reflexivity|]; wsimpl;
          rewrite <- ?app_assoc; cbn [app firstn gpio_events];
          split; [first [reflexivity | symmetry; apply app_nil_r]
                 | reflexivity] |]).
  lia.
Qed.

Lemma gpio_fault_is_uncaught_witness :
  let w := interrupted_after 2 (boot_world "/home/pi") in
  exists w' evs,
    script "/home/pi" ["USB1"] (fun _ => true)
      (Py.Build_datetime 2024 1 1 12 0 0 123456) GPIO_HIGH [None] w
    = (Crashed KeyboardInterrupt, w')
    /\ trace w' = trace w ++ evs
    /\ evs = firstn 2 (gpio_events GPIO_HIGH).
Proof.
  intros w.
  apply (gpio_fault_is_uncaught "/home/pi" ["USB1"] (fun _ => true)
           (Py.Build_datetime 2024 1 1 12 0 0 123456) GPIO_HIGH [None]
           2%nat KeyboardInterrupt w).
  - reflexivity.
  - lia.
Defined.
